(** * MLHelper: the hypothesis-testing engine of [hypothesis_testing.py]

    A shallow embedding of class [TestHypothesis].  The class orchestrates
    calls into numpy, scipy.stats and pandas: it validates preconditions,
    emits warnings, calls one statistical routine and reports the verdict.

    - Python floats are binary64 numbers: they are Rocq's primitive floats,
      so [p_value < alpha] is IEEE comparison, NaN included.
    - The numerical routines are not part of the repository.  They are the
      fields of the class [SciPy]: deterministic functions that either
      return or raise.
    - Effects (stdout, [warnings.warn], exceptions, calls into the
      libraries) are threaded by the monad [M]: a run yields the log of
      events in program order and either a value or the exception raised.
      [warnings.warn] is taken under the interpreter's default filter, where
      it reports and returns. *)

From Stdlib Require Import ZArith List String Ascii Bool Lia.
From Stdlib Require Import PrimFloat Uint63 FloatOps FloatAxioms SpecFloat.
From Stdlib Require Import DecimalString.
Import ListNotations.

Set Implicit Arguments.
#[local] Set Warnings "-inexact-float".

Local Open Scope Z_scope.

(** ** Data *)

(** A numeric sample, a categorical sample, a contingency table of counts
    ([pd.crosstab]) and a two-dimensional array of floats (the table of
    expected frequencies). *)
Definition sample := list float.
Definition labels := list string.
Definition table := list (list Z).
Definition ndarray := list (list float).

(** [len(x)] *)
Definition len {A : Type} (x : list A) : Z := Z.of_nat (List.length x).

(** An int that meets a float in a product or a comparison is converted to
    binary64; the conversion is exact below 2^53, which covers every length
    and cell count. *)
Definition float_of_int (z : Z) : float := PrimFloat.of_uint63 (Uint63.of_Z z).

(** [x > y] on floats. *)
Definition gtb (x y : float) : bool := PrimFloat.ltb y x.

(** The line break written [\n] in the source's messages. *)
Definition nl : string := String (ascii_of_nat 10) EmptyString.

(** ** Exceptions, events and the monad *)

(** The routines of numpy, scipy.stats and pandas that the class calls. *)
Inductive libfn : Set :=
| Shapiro | Kstest | Bartlett | Levene
| Ttest_1samp | Ttest_ind | Ttest_rel | F_oneway
| Mannwhitneyu | Wilcoxon | Kruskal
| Crosstab | Chi2_contingency | Fisher_exact
| Pearsonr | Spearmanr.

(** [ValueError] is what the class itself raises; [IndexError] comes from
    [features[0]] on an empty tuple.  An exception raised inside a library
    routine propagates unchanged; the model keeps its origin apart as
    [LibraryError]. *)
Inductive exn : Set :=
| ValueError (msg : string)
| IndexError (msg : string)
| LibraryError (fn : libfn) (msg : string).

Inductive event : Set :=
| Stdout (text : string)        (* print(...) *)
| UserWarning (msg : string)    (* warnings.warn(...) *)
| Called (fn : libfn).          (* a call into a library routine *)

Inductive result (A : Type) : Type :=
| Ok (a : A)
| Raise (e : exn).
Arguments Raise {A} e.

(** What a library routine does: return a value or raise. *)
Inductive answer (A : Type) : Type :=
| Returns (a : A)
| Fails (msg : string).
Arguments Fails {A} msg.

Definition M (A : Type) : Type := (list event * result A)%type.

Definition trace {A : Type} (m : M A) : list event := fst m.
Definition outcome {A : Type} (m : M A) : result A := snd m.

Definition ret {A : Type} (a : A) : M A := ([], Ok a).

Definition bind {A B : Type} (m : M A) (k : A -> M B) : M B :=
  match m with
  | (t, Ok a) => let (t', r) := k a in (t ++ t', r)
  | (t, Raise e) => (t, Raise e)
  end.

Definition raise {A : Type} (e : exn) : M A := ([], Raise e).
Definition print (text : string) : M unit := ([Stdout text], Ok tt).
Definition warn (msg : string) : M unit := ([UserWarning msg], Ok tt).

Definition call {A : Type} (fn : libfn) (r : answer A) : M A :=
  ([Called fn],
   match r with
   | Returns a => Ok a
   | Fails msg => Raise (LibraryError fn msg)
   end).

Declare Scope py_scope.
Delimit Scope py_scope with py.
Notation "x <- c1 ;; c2" := (bind c1 (fun x => c2))
  (at level 61, c1 at next level, right associativity) : py_scope.
Notation "' pat <- c1 ;; c2" := (bind c1 (fun x => match x with pat => c2 end))
  (at level 61, pat pattern, c1 at next level, right associativity) : py_scope.
Notation "c1 ;; c2" := (bind c1 (fun _ => c2))
  (at level 61, right associativity) : py_scope.
Local Open Scope py_scope.

(** Short-circuit [a or b] and [a and b] over effectful operands, and [not]. *)
Definition orM (a b : M bool) : M bool := x <- a ;; if x then ret true else b.
Definition andM (a b : M bool) : M bool := x <- a ;; if x then b else ret false.
Definition notM (a : M bool) : M bool := x <- a ;; ret (negb x).

(** ** The statistics libraries *)

(** Each routine returns the tuple the source destructures.  [np.mean],
    [np.std] and [np.var(_, ddof=1)] are total on sequences of floats. *)
Class SciPy : Type := {
  np_mean : sample -> float;
  np_std : sample -> float;
  np_var : sample -> float;
  shapiro : sample -> answer (float * float);
  kstest : sample -> float -> float -> answer (float * float);
  bartlett : list sample -> answer (float * float);
  levene : list sample -> answer (float * float);
  ttest_1samp : sample -> float -> answer (float * float);
  ttest_ind : sample -> sample -> bool -> answer (float * float);
  ttest_rel : sample -> sample -> answer (float * float);
  f_oneway : list sample -> answer (float * float);
  mannwhitneyu : sample -> sample -> answer (float * float);
  wilcoxon : sample -> sample -> answer (float * float);
  kruskal : list sample -> answer (float * float);
  crosstab : labels -> labels -> answer table;
  chi2_contingency : table -> answer (float * float * Z * ndarray);
  fisher_exact : table -> answer (float * float);
  pearsonr : sample -> sample -> answer (float * float);
  spearmanr : sample -> sample -> answer (float * float)
}.

(** ** class TestHypothesis *)

Record TestHypothesis : Set := { significance_level : float }.

(** [__init__(self, significance_level = 0.05)] *)
Definition init (significance_level : option float) : TestHypothesis :=
  {| significance_level :=
       match significance_level with
       | Some a => a
       | None => 0.05%float
       end |}.

Definition TestResult : Set := (bool * float)%type.

Section Engine.

Context {lib : SciPy}.
Variable self : TestHypothesis.

Definition isNormal (feature : sample) : M bool :=
  p_value <-
    (if len feature >? 5000
     then '(_, p) <- call Kstest (kstest feature (np_mean feature) (np_std feature)) ;;
          ret p
     else '(_, p) <- call Shapiro (shapiro feature) ;; ret p) ;;
  ret (gtb p_value (significance_level self)).

(** [any(not self.isNormal(f) for f in features)]: the generator stops at
    the first sample that is not normal. *)
Fixpoint any_not_normal (features : list sample) : M bool :=
  match features with
  | [] => ret false
  | f :: rest =>
      normal <- isNormal f ;;
      if negb normal then ret true else any_not_normal rest
  end.

Definition hasEqualVariance (features : list sample) (method : string) : M bool :=
  p_value <-
    (if String.eqb method "bartlett"
     then
       not_normal <- any_not_normal features ;;
       if not_normal
       then raise (ValueError "Bartlett's test requires normality.")
       else '(_, p) <- call Bartlett (bartlett features) ;; ret p
     else '(_, p) <- call Levene (levene features) ;; ret p) ;;
  ret (gtb p_value (significance_level self)).

Definition msg_rejected : string :=
  ("Null Hypothesis rejected." ++ nl ++ "There is a significance difference.")%string.
Definition msg_not_rejected : string :=
  ("Not enough evidence to reject Null Hypotheses." ++ nl
   ++ "There is no significance difference.")%string.

Definition checkSignificance (p_value : float) : M TestResult :=
  if PrimFloat.ltb p_value (significance_level self)
  then print msg_rejected ;; ret (true, p_value)
  else print msg_not_rejected ;; ret (false, p_value).

Definition OneSampleTtest (feature : sample) (meu : float) (clt : bool)
  : M TestResult :=
  normal <- isNormal feature ;;
  (if negb normal
   then if negb clt
        then raise (ValueError "Sample is not Normally distributed")
        else if len feature <=? 30
             then raise (ValueError "Unable to apply CLT for feature size < 30")
             else ret tt
   else ret tt) ;;
  '(_, p_value) <- call Ttest_1samp (ttest_1samp feature meu) ;;
  checkSignificance p_value.

Definition twoSampleTtest (feature1 feature2 : sample) (clt : bool)
  : M TestResult :=
  (if negb (len feature1 =? len feature2)
   then raise (ValueError "Samples are of different sizes")
   else ret tt) ;;
  not_normal <- orM (notM (isNormal feature1)) (notM (isNormal feature2)) ;;
  (if not_normal
   then if negb clt
        then raise (ValueError "Samples are not Normally distributed")
        else if len feature1 <=? 30
             then raise (ValueError "Unable to apply CLT for feature size < 30")
             else ret tt
   else ret tt) ;;
  equal_var <- hasEqualVariance [feature1; feature2] "levene" ;;
  '(_, p_value) <- call Ttest_ind (ttest_ind feature1 feature2 equal_var) ;;
  checkSignificance p_value.

Definition pairedTtest (feature1 feature2 : sample) (clt : bool)
  : M TestResult :=
  not_normal <- orM (notM (isNormal feature1)) (notM (isNormal feature2)) ;;
  (if not_normal
   then if negb clt
        then raise (ValueError "Samples are not Normally distributed")
        else if len feature1 <=? 30
             then raise (ValueError "Unable to apply CLT for feature size < 30")
             else ret tt
   else ret tt) ;;
  '(_, p_value) <- call Ttest_rel (ttest_rel feature1 feature2) ;;
  checkSignificance p_value.

Definition msg_unequal_length : string :=
  ("Please ensure all the samples are of same length." ++ nl
   ++ "Try downsampling the larger samples.")%string.

(** The first loop of [ANOVA]: one warning at the first sample whose length
    is not [n], then [break]. *)
Fixpoint warn_unequal_length (n : Z) (features : list sample) : M unit :=
  match features with
  | [] => ret tt
  | feature :: rest =>
      if negb (len feature =? n)
      then warn msg_unequal_length
      else warn_unequal_length n rest
  end.

(** The second loop of [ANOVA]. *)
Fixpoint require_normal (clt : bool) (features : list sample) : M unit :=
  match features with
  | [] => ret tt
  | feature :: rest =>
      normal <- isNormal feature ;;
      (if negb normal
       then if negb clt
            then raise (ValueError "Sample is not Normally distributed")
            else if len feature <=? 30
                 then raise (ValueError "Unable to apply CLT for feature size < 30")
                 else ret tt
       else ret tt) ;;
      require_normal clt rest
  end.

(** What [ANOVA] does after its first loop. *)
Definition ANOVA_checks_and_test (features : list sample) (clt : bool)
  : M TestResult :=
  require_normal clt features ;;
  equal_var <- hasEqualVariance features "bartlett" ;;
  '(_, p_value) <- call F_oneway (f_oneway features) ;;
  checkSignificance p_value.

Definition ANOVA (features : list sample) (clt : bool) : M TestResult :=
  match features with
  | [] => raise (IndexError "tuple index out of range")
  | feature0 :: _ =>
      let n := len feature0 in
      warn_unequal_length n features ;;
      ANOVA_checks_and_test features clt
  end.

(** [abs(len1 - len2) > 0.5 * min(len1, len2)] *)
Definition large_size_difference (len1 len2 : Z) : bool :=
  gtb (float_of_int (Z.abs (len1 - len2)))
      (0.5 * float_of_int (Z.min len1 len2))%float.

Definition mannWhitneyUtest (feature1 feature2 : sample) : M TestResult :=
  let len1 := len feature1 in
  let len2 := len feature2 in
  (if large_size_difference len1 len2
   then warn "Warning: Large sample size difference may affect test accuracy!"
   else ret tt) ;;
  both_normal <- andM (isNormal feature1) (isNormal feature2) ;;
  (if both_normal
   then warn "Features are normal, Consider using t-test instead"
   else ret tt) ;;
  '(_, p_value) <- call Mannwhitneyu (mannwhitneyu feature1 feature2) ;;
  checkSignificance p_value.

Definition msg_sizes_different : string :=
  ("Sample sizes are different." ++ nl ++ "Try using samples with same sizes")%string.

Definition wilcoxonSignedRanktest (feature1 feature2 : sample) : M TestResult :=
  let len1 := len feature1 in
  let len2 := len feature2 in
  (if negb (len1 =? len2)
   then raise (ValueError msg_sizes_different)
   else ret tt) ;;
  both_normal <- andM (isNormal feature1) (isNormal feature2) ;;
  (if both_normal
   then warn "Features are normal, Consider using Paired sample t-test instead"
   else ret tt) ;;
  '(_, p_value) <- call Wilcoxon (wilcoxon feature1 feature2) ;;
  checkSignificance p_value.

Definition kruskalWallis (features : list sample) : M TestResult :=
  '(_, p_value) <- call Kruskal (kruskal features) ;;
  checkSignificance p_value.

(** [expected.size] and [(expected < 5).sum()] *)
Definition size (a : ndarray) : Z := len (List.concat a).
Definition count_below_5 (a : ndarray) : Z :=
  len (List.filter (fun x => PrimFloat.ltb x 5) (List.concat a)).

(** [(expected < 5).sum() > 0.2 * expected.size] *)
Definition too_many_small (expected : ndarray) : bool :=
  gtb (float_of_int (count_below_5 expected))
      (0.2 * float_of_int (size expected))%float.

Definition msg_small_expected : string :=
  "Some expected frequencies are too small, Fisher's test is preferred.".

Definition chiSquare (feature1 feature2 : labels) : M TestResult :=
  ct <- call Crosstab (crosstab feature1 feature2) ;;
  '(_, p_value, _, expected) <- call Chi2_contingency (chi2_contingency ct) ;;
  (if too_many_small expected
   then raise (ValueError msg_small_expected)
   else ret tt) ;;
  checkSignificance p_value.

Definition fisherExacttest (feature1 feature2 : labels) : M TestResult :=
  (if (len feature1 >=? 5) && (len feature2 >=? 5)
   then warn ("Sample lengths are >=5." ++ nl ++ "Try using Chi-Square test.")%string
   else ret tt) ;;
  ct <- call Crosstab (crosstab feature1 feature2) ;;
  '(_, p_value) <- call Fisher_exact (fisher_exact ct) ;;
  checkSignificance p_value.

Definition msg_lengths_not_equal : string :=
  ("Sample lenghts are not equal." ++ nl ++ "Try using downsampling methods.")%string.
Definition msg_zero_variance : string :=
  ("Variance of feature should not be 0." ++ nl
   ++ "Try using Spearman Correlation instead.")%string.

Definition pearsonCorrelation (feature1 feature2 : sample) : M TestResult :=
  (if negb (len feature1 =? len feature2)
   then raise (ValueError msg_lengths_not_equal)
   else ret tt) ;;
  (if PrimFloat.eqb (np_var feature1) 0 || PrimFloat.eqb (np_var feature2) 0
   then raise (ValueError msg_zero_variance)
   else ret tt) ;;
  not_normal <- orM (notM (isNormal feature1)) (notM (isNormal feature2)) ;;
  (if not_normal
   then raise (ValueError "Samples are not normally distributed.")
   else ret tt) ;;
  '(_, p_value) <- call Pearsonr (pearsonr feature1 feature2) ;;
  checkSignificance p_value.

Definition spearmanCorrelation (feature1 feature2 : sample) : M TestResult :=
  (if negb (len feature1 =? len feature2)
   then raise (ValueError msg_lengths_not_equal)
   else ret tt) ;;
  '(_, p_value) <- call Spearmanr (spearmanr feature1 feature2) ;;
  checkSignificance p_value.

(** The test operations of the class, and running one of them. *)
Inductive operation : Type :=
| Op_OneSampleTtest (feature : sample) (meu : float) (clt : bool)
| Op_twoSampleTtest (feature1 feature2 : sample) (clt : bool)
| Op_pairedTtest (feature1 feature2 : sample) (clt : bool)
| Op_ANOVA (features : list sample) (clt : bool)
| Op_mannWhitneyUtest (feature1 feature2 : sample)
| Op_wilcoxonSignedRanktest (feature1 feature2 : sample)
| Op_kruskalWallis (features : list sample)
| Op_chiSquare (feature1 feature2 : labels)
| Op_fisherExacttest (feature1 feature2 : labels)
| Op_pearsonCorrelation (feature1 feature2 : sample)
| Op_spearmanCorrelation (feature1 feature2 : sample).

Definition perform (op : operation) : M TestResult :=
  match op with
  | Op_OneSampleTtest feature meu clt => OneSampleTtest feature meu clt
  | Op_twoSampleTtest f1 f2 clt => twoSampleTtest f1 f2 clt
  | Op_pairedTtest f1 f2 clt => pairedTtest f1 f2 clt
  | Op_ANOVA features clt => ANOVA features clt
  | Op_mannWhitneyUtest f1 f2 => mannWhitneyUtest f1 f2
  | Op_wilcoxonSignedRanktest f1 f2 => wilcoxonSignedRanktest f1 f2
  | Op_kruskalWallis features => kruskalWallis features
  | Op_chiSquare f1 f2 => chiSquare f1 f2
  | Op_fisherExacttest f1 f2 => fisherExacttest f1 f2
  | Op_pearsonCorrelation f1 f2 => pearsonCorrelation f1 f2
  | Op_spearmanCorrelation f1 f2 => spearmanCorrelation f1 f2
  end.

End Engine.

Arguments perform {lib} self op.

(** ** A small library to run the class on

    A deterministic stand-in for numpy, scipy.stats and pandas, used to
    evaluate the class on concrete inputs.  The normality tests report the
    first element of the sample as p-value, so a sample can be made normal
    or not at will; [shapiro] refuses samples shorter than three, as
    scipy's does.  [crosstab] counts co-occurrences over the labels in order
    of first appearance and [chi2_contingency] computes the expected
    frequencies [row_total * column_total / total]. *)
Module Double.

Definition first (s : sample) : float := hd 0%float s.

Definition sum_Z (l : list Z) : Z := fold_right Z.add 0 l.

Fixpoint column_totals (t : table) : list Z :=
  match t with
  | [] => []
  | [row] => row
  | row :: rest => map (fun '(a, b) => a + b) (combine row (column_totals rest))
  end.

Definition expected_freq (t : table) : ndarray :=
  let total := float_of_int (sum_Z (map sum_Z t)) in
  map (fun row =>
         map (fun c => (float_of_int (sum_Z row) * float_of_int c / total)%float)
             (column_totals t))
      t.

Definition count_pairs (f1 f2 : labels) (r c : string) : Z :=
  len (filter (fun '(a, b) => String.eqb a r && String.eqb b c) (combine f1 f2)).

Definition cross (f1 f2 : labels) : answer table :=
  if len f1 =? len f2
  then Returns (map (fun r => map (count_pairs f1 f2 r) (nodup string_dec f2))
                    (nodup string_dec f1))
  else Fails "All arrays must be of the same length".

#[local] Instance scipy : SciPy := {|
  np_mean := fun _ => 0%float;
  np_std := fun _ => 1%float;
  np_var := fun s =>
    match s with
    | a :: b :: _ => if PrimFloat.eqb a b then 0%float else 1%float
    | _ => nan
    end;
  shapiro := fun s =>
    if len s <? 3 then Fails "Data must be at least length 3."
    else Returns (1%float, first s);
  kstest := fun s _ _ => Returns (0%float, first s);
  bartlett := fun _ => Returns (0%float, 0.5%float);
  levene := fun _ => Returns (0%float, 0.5%float);
  ttest_1samp := fun _ _ => Returns (0%float, 0.5%float);
  ttest_ind := fun _ _ _ => Returns (0%float, 0.5%float);
  ttest_rel := fun _ _ => Returns (0%float, 0.5%float);
  f_oneway := fun _ => Returns (0%float, 0.01%float);
  mannwhitneyu := fun _ _ => Returns (0%float, 0.5%float);
  wilcoxon := fun _ _ => Returns (0%float, 0.5%float);
  kruskal := fun _ => Returns (0%float, 0.01%float);
  crosstab := cross;
  chi2_contingency := fun t => Returns (0%float, 0.5%float, 1, expected_freq t);
  fisher_exact := fun _ => Returns (1%float, 0.5%float);
  pearsonr := fun _ _ => Returns (0%float, 0.5%float);
  spearmanr := fun _ _ => Returns (0%float, 0.5%float)
|}.

(** An engine with the default significance level 0.05. *)
Definition engine : TestHypothesis := init None.

(** Three samples: normal under [scipy] above, not normal and short, not
    normal and of size 31. *)
Definition normal3 : sample := [0.9; 1.5; 2.5]%float.
Definition skewed3 : sample := [0.01; 1.5; 2.5]%float.
Definition skewed31 : sample := repeat 0.01%float 31.

(** A constant sample: its variance under [scipy] above is zero. *)
Definition constant3 : sample := [2; 2; 2]%float.

(** Six observations of two binary categories: a 2x2 table whose expected
    frequencies are all 1.5. *)
Definition rows6 : labels := ["a"; "a"; "b"; "b"; "a"; "b"]%string.
Definition cols6 : labels := ["x"; "y"; "x"; "y"; "x"; "y"]%string.

End Double.

(** ** Predicates used in the statements *)

Definition raises_ValueError {A : Type} (m : M A) : Prop :=
  exists msg, outcome m = Raise (ValueError msg).

Definition returns_normally {A : Type} (m : M A) : Prop :=
  exists a, outcome m = Ok a.

(** The invariant of a [TestResult]: [rejected == (p_value < alpha)]. *)
Definition verdict_ok (self : TestHypothesis) (m : M TestResult) : Prop :=
  match outcome m with
  | Ok (rejected, p_value) =>
      rejected = PrimFloat.ltb p_value (significance_level self)
  | Raise _ => True
  end.


Fixpoint all_from (start : Z) (n : nat) (P : Z -> bool) : bool :=
  match n with
  | O => true
  | S k => P start && all_from (start + 1) k P
  end.


(** The normality test that [isNormal] chooses for a sample, and what the
    library answers. *)
Definition normality_test (feature : sample) : libfn :=
  if len feature >? 5000 then Kstest else Shapiro.

Definition normality_answer {lib : SciPy} (feature : sample) : answer (float * float) :=
  if len feature >? 5000
  then kstest feature (np_mean feature) (np_std feature)
  else shapiro feature.

(** Calls that compute a test statistic: every routine but the normality
    tests behind [isNormal] and the cross-tabulation of the data. *)
Definition computes_statistic (ev : event) : bool :=
  match ev with
  | Called Shapiro | Called Kstest | Called Crosstab => false
  | Called _ => true
  | Stdout _ | UserWarning _ => false
  end.

Definition no_statistic (ev : event) : Prop := computes_statistic ev = false.

(** Three properties of a run: it computes no test statistic at all; it
    never ends in a validation error; and whenever it ends in a validation
    error, no test statistic has been computed before. *)
Definition checks_only {A : Type} (m : M A) : Prop := Forall no_statistic (trace m).

Definition no_validation_error {A : Type} (m : M A) : Prop :=
  forall msg, outcome m <> Raise (ValueError msg).

Definition validates_first {A : Type} (m : M A) : Prop :=
  forall msg, outcome m = Raise (ValueError msg) -> Forall no_statistic (trace m).

Definition is_chiSquare (op : operation) : bool :=
  match op with
  | Op_chiSquare _ _ => true
  | _ => false
  end.

(** ** Further predicates on runs *)

Definition is_stdout (ev : event) : bool :=
  match ev with
  | Stdout _ => true
  | _ => false
  end.

Definition is_warning (ev : event) : bool :=
  match ev with
  | UserWarning _ => true
  | _ => false
  end.

Definition is_large_difference_warning (ev : event) : bool :=
  match ev with
  | UserWarning msg =>
      String.eqb msg "Warning: Large sample size difference may affect test accuracy!"
  | _ => false
  end.

(** A run whose log has no event of the kind [Q]; in particular a run that
    prints nothing, and one that warns of nothing. *)
Definition silent_on (Q : event -> bool) {A : Type} (m : M A) : Prop :=
  Forall (fun ev => Q ev = false) (trace m).

Definition prints_nothing {A : Type} (m : M A) : Prop := silent_on is_stdout m.
Definition warns_nothing {A : Type} (m : M A) : Prop := silent_on is_warning m.

(** A run that, when it raises, raises an exception of the library. *)
Definition raises_only_library_errors {A : Type} (m : M A) : Prop :=
  forall e, outcome m = Raise e -> exists fn msg, e = LibraryError fn msg.

(** A run reports its verdict when, if it returns [(rejected, p_value)], the
    last event is the line printed for [rejected] and nothing else was
    printed, and, if it raises, nothing was printed at all. *)
Definition reports_verdict (m : M TestResult) : Prop :=
  match outcome m with
  | Ok (rejected, _) =>
      exists t,
        trace m = t ++ [Stdout (if rejected then msg_rejected else msg_not_rejected)]
        /\ Forall (fun ev => is_stdout ev = false) t
  | Raise _ => Forall (fun ev => is_stdout ev = false) (trace m)
  end.

(** Whether [abs(len1 - len2) > 0.5 * min(len1, len2)], evaluated on
    binary64 numbers, agrees with [2 * |len1 - len2| > min(len1, len2)] over
    the integers; and whether it does for all lengths up to [bound]. *)
Definition size_difference_exact (len1 len2 : Z) : bool :=
  Bool.eqb (large_size_difference len1 len2)
           (Z.min len1 len2 <? 2 * Z.abs (len1 - len2)).

Definition size_difference_exact_upto (bound : nat) : bool :=
  all_from 0 (S bound)
    (fun len1 => all_from 0 (S bound) (fun len2 => size_difference_exact len1 len2)).

Definition msg_large_difference : string :=
  "Warning: Large sample size difference may affect test accuracy!".

(** More samples for the stand-in library: normal ones of sizes 4 and 31. *)
Module Samples.

Definition normal4 : sample := [0.9; 1.5; 2.5; 3.5]%float.
Definition normal31 : sample := repeat 0.9%float 31.

End Samples.

(** * data_loader.py: class DataLoader

    The loader keeps the last table it read in [self.data].  pandas is an
    interface again: [read_csv] and [read_excel] either return a table or
    raise, and the only thing the class asks of a table is its [shape].  A
    method takes the loader and returns the log, the value or exception, and
    the loader afterwards. *)
Module Loader.

(** [s.endswith(suffix)] *)
Definition endswith (s suffix : string) : bool :=
  let n := String.length s in
  let m := String.length suffix in
  (m <=? n)%nat && String.eqb (substring (n - m) m s) suffix.

(** A column or a sheet, by position or by name. *)
Inductive key : Set :=
| Position (i : Z)
| Name (s : string).

Record csv_options : Set := {
  sep : string;
  csv_usecols : option (list key);
  names : option (list string);
  csv_index_col : option key;
  csv_dtype : option (list (string * string))
}.

Record excel_options : Set := {
  sheet_name : key;
  excel_usecols : option (list key);
  excel_index_col : option key;
  excel_dtype : option (list (string * string))
}.

(** The defaults of [load_csv] and [load_excel]. *)
Definition csv_defaults : csv_options :=
  {| sep := ","; csv_usecols := None; names := None;
     csv_index_col := None; csv_dtype := None |}.

Definition excel_defaults : excel_options :=
  {| sheet_name := Position 0; excel_usecols := None;
     excel_index_col := None; excel_dtype := None |}.

Class Pandas : Type := {
  DataFrame : Type;
  shape : DataFrame -> Z * Z;
  read_csv : string -> csv_options -> answer DataFrame;
  read_excel : string -> excel_options -> answer DataFrame
}.

Inductive error : Set :=
| ValueError (msg : string)
| RuntimeError (msg : string).

Inductive event : Set :=
| Stdout (text : string)
| Read_csv (filepath : string)
| Read_excel (filepath : string).

Inductive result (A : Type) : Type :=
| Ok (a : A)
| Raise (e : error).
Arguments Raise {A} e.

(** [str(n)] for an int and [str((rows, columns))] for a shape. *)
Definition str_int (n : Z) : string := NilZero.string_of_int (Z.to_int n).

Definition str_shape (s : Z * Z) : string :=
  ("(" ++ str_int (fst s) ++ ", " ++ str_int (snd s) ++ ")")%string.

Section Methods.

Context {pd : Pandas}.

Record DataLoader : Type := { data : option DataFrame }.

Definition reply (A : Type) : Type := (list event * result A * DataLoader)%type.

Definition log {A : Type} (r : reply A) : list event := fst (fst r).
Definition value {A : Type} (r : reply A) : result A := snd (fst r).
Definition after {A : Type} (r : reply A) : DataLoader := snd r.

(** [__init__] *)
Definition init : DataLoader := {| data := None |}.

Definition load_csv (self : DataLoader) (filepath : string) (options : csv_options)
  : reply DataFrame :=
  if negb (endswith filepath ".csv")
  then ([], Raise (ValueError "File should be in CSV format."), self)
  else
    match read_csv filepath options with
    | Returns df =>
        ([Read_csv filepath;
          Stdout ("CSV file loaded successfully! Shape: " ++ str_shape (shape df))],
         Ok df, {| data := Some df |})
    | Fails e =>
        ([Read_csv filepath], Raise (RuntimeError ("Error loading CSV: " ++ e)), self)
    end.

Definition load_excel (self : DataLoader) (filepath : string) (options : excel_options)
  : reply DataFrame :=
  if negb (endswith filepath ".xlsx")
  then ([], Raise (ValueError "File should be in Excel (.xlsx) format."), self)
  else
    match read_excel filepath options with
    | Returns df =>
        ([Read_excel filepath;
          Stdout ("Excel file loaded successfully! Shape: " ++ str_shape (shape df))],
         Ok df, {| data := Some df |})
    | Fails e =>
        ([Read_excel filepath],
         Raise (RuntimeError ("Error loading Excel file: " ++ e)), self)
    end.

Definition get_data (self : DataLoader) : reply DataFrame :=
  match data self with
  | None => ([], Raise (ValueError "No dataset loaded. Please load a dataset first."), self)
  | Some df => ([], Ok df, self)
  end.

(** A call of one of the three methods, and a session: calls made one after
    the other on the same loader by a caller that catches what they raise. *)
Inductive method_call : Type :=
| Load_csv (filepath : string) (options : csv_options)
| Load_excel (filepath : string) (options : excel_options)
| Get_data.

Definition invoke (self : DataLoader) (c : method_call) : reply DataFrame :=
  match c with
  | Load_csv filepath options => load_csv self filepath options
  | Load_excel filepath options => load_excel self filepath options
  | Get_data => get_data self
  end.

Fixpoint session (self : DataLoader) (calls : list method_call) : DataLoader :=
  match calls with
  | [] => self
  | c :: rest => session (after (invoke self c)) rest
  end.

(** The table a call reads when its path has the right extension and pandas
    returns; and the last table read in a list of calls. *)
Definition loads (c : method_call) : option DataFrame :=
  match c with
  | Load_csv filepath options =>
      if endswith filepath ".csv"
      then match read_csv filepath options with
           | Returns df => Some df
           | Fails _ => None
           end
      else None
  | Load_excel filepath options =>
      if endswith filepath ".xlsx"
      then match read_excel filepath options with
           | Returns df => Some df
           | Fails _ => None
           end
      else None
  | Get_data => None
  end.

Fixpoint last_loaded (before : option DataFrame) (calls : list method_call)
  : option DataFrame :=
  match calls with
  | [] => before
  | c :: rest =>
      last_loaded (match loads c with Some df => Some df | None => before end) rest
  end.

End Methods.

(** A stand-in for pandas: tables are lists of rows, and every path but
    "missing.csv" and "missing.xlsx" holds the same 2x3 table. *)
Module Double.

Definition table23 : list (list string) :=
  [["1"; "2"; "3"]; ["4"; "5"; "6"]]%string.

#[local] Instance pandas : Pandas := {|
  DataFrame := list (list string);
  shape := fun df => (len df, len (hd [] df));
  read_csv := fun filepath _ =>
    if String.eqb filepath "missing.csv"
    then Fails "[Errno 2] No such file or directory: 'missing.csv'"
    else Returns table23;
  read_excel := fun filepath _ =>
    if String.eqb filepath "missing.xlsx"
    then Fails "[Errno 2] No such file or directory: 'missing.xlsx'"
    else Returns (table23 ++ table23)
|}.

End Double.

End Loader.

(** ** Sanity checks of the model on concrete inputs *)

Example kruskal_run :
  kruskalWallis (lib := Double.scipy) Double.engine [Double.normal3; Double.skewed3]
  = ([Called Kruskal; Stdout msg_rejected], Ok (true, 0.01%float)).
Proof. reflexivity. Qed.

Example expected_2x2 :
  Double.expected_freq [[2; 1]; [1; 2]] = [[1.5; 1.5]; [1.5; 1.5]]%float.
Proof. reflexivity. Qed.

Example chiSquare_run_2x2 :
  chiSquare (lib := Double.scipy) Double.engine Double.rows6 Double.cols6
  = ([Called Crosstab; Called Chi2_contingency], Raise (ValueError msg_small_expected)).
Proof. reflexivity. Qed.

Example nan_is_never_rejected :
  checkSignificance Double.engine nan = ([Stdout msg_not_rejected], Ok (false, nan)).
Proof. reflexivity. Qed.

(** ** The monad *)

Lemma bind_Ok {A B : Type} (m : M A) (k : A -> M B) (t : list event) (a : A) :
  m = (t, Ok a) -> bind m k = (t ++ trace (k a), outcome (k a)).
Proof. intros ->. unfold bind. destruct (k a); reflexivity. Qed.

Lemma bind_Raise {A B : Type} (m : M A) (k : A -> M B) (t : list event) (e : exn) :
  m = (t, Raise e) -> bind m k = (t, Raise e).
Proof. intros ->. reflexivity. Qed.

Lemma bind_ret {A B : Type} (a : A) (k : A -> M B) : bind (ret a) k = k a.
Proof. unfold bind, ret. destruct (k a); reflexivity. Qed.

Lemma bind_raise {A B : Type} (e : exn) (k : A -> M B) : bind (raise e) k = raise e.
Proof. reflexivity. Qed.

Lemma outcome_bind_Ok {A B : Type} (m : M A) (k : A -> M B) (a : A) :
  outcome m = Ok a -> outcome (bind m k) = outcome (k a).
Proof.
  destruct m as [t r]; simpl; intros ->.
  unfold bind. destruct (k a); reflexivity.
Qed.

Lemma trace_bind_Ok {A B : Type} (m : M A) (k : A -> M B) (a : A) :
  outcome m = Ok a -> trace (bind m k) = trace m ++ trace (k a).
Proof.
  destruct m as [t r]; simpl; intros ->.
  unfold bind. destruct (k a); reflexivity.
Qed.

Lemma outcome_bind_Raise {A B : Type} (m : M A) (k : A -> M B) (e : exn) :
  outcome m = Raise e -> outcome (bind m k) = Raise e /\ trace (bind m k) = trace m.
Proof. destruct m as [t r]; simpl; intros ->. split; reflexivity. Qed.

Lemma outcome_bind_inv {A B : Type} (m : M A) (k : A -> M B) (b : B) :
  outcome (bind m k) = Ok b -> exists a, outcome m = Ok a /\ outcome (k a) = Ok b.
Proof.
  destruct m as [t [a | e]]; simpl.
  - intros H. exists a. split; [reflexivity |].
    unfold bind in H. destruct (k a); exact H.
  - discriminate.
Qed.

(** ** checkSignificance and the invariant of a result *)

Section Verdict.

Context {lib : SciPy}.
Variable self : TestHypothesis.

Lemma checkSignificance_run (p_value : float) :
  checkSignificance self p_value
  = ([Stdout (if PrimFloat.ltb p_value (significance_level self)
              then msg_rejected else msg_not_rejected)],
     Ok (PrimFloat.ltb p_value (significance_level self), p_value)).
Proof.
  unfold checkSignificance.
  destruct (PrimFloat.ltb p_value (significance_level self)); reflexivity.
Qed.

Lemma verdict_check (p_value : float) : verdict_ok self (checkSignificance self p_value).
Proof. unfold verdict_ok. rewrite checkSignificance_run. reflexivity. Qed.

Lemma verdict_bind {A : Type} (m : M A) (k : A -> M TestResult) :
  (forall a, verdict_ok self (k a)) -> verdict_ok self (bind m k).
Proof.
  intros H. destruct m as [t [a | e]]; [| exact I].
  unfold verdict_ok. rewrite (outcome_bind_Ok (t, Ok a) k (a := a) eq_refl).
  apply H.
Qed.

Lemma verdict_call (fn : libfn) (r : answer (float * float)) :
  verdict_ok self ('(_, p_value) <- call fn r ;; checkSignificance self p_value).
Proof. apply verdict_bind. intros [stat p]. apply verdict_check. Qed.

Ltac verdict :=
  repeat first
    [ apply verdict_call
    | apply verdict_check
    | apply verdict_bind; intros ].

Lemma verdict_perform (op : operation) : verdict_ok self (perform self op).
Proof.
  destruct op; simpl.
  - unfold OneSampleTtest. verdict.
  - unfold twoSampleTtest. verdict.
  - unfold pairedTtest. verdict.
  - unfold ANOVA. destruct features as [| feature0 rest]; [exact I |].
    unfold ANOVA_checks_and_test. verdict.
  - unfold mannWhitneyUtest. verdict.
  - unfold wilcoxonSignedRanktest. verdict.
  - unfold kruskalWallis. verdict.
  - unfold chiSquare. apply verdict_bind; intros ct.
    apply verdict_bind; intros [[[chi2 p] dof] expected]. verdict.
  - unfold fisherExacttest. verdict.
  - unfold pearsonCorrelation. verdict.
  - unfold spearmanCorrelation. verdict.
Qed.

End Verdict.

(** C1.  [checkSignificance] returns [(p_value < alpha, p_value)]: the first
    component is true exactly when the p-value is strictly below the
    significance level, the second is the p-value unchanged, and the verdict
    printed is the matching one.  Every test operation that returns a result
    returns one that satisfies [rejected == (p_value < alpha)]. *)
Theorem checkSignificance_invariant (lib : SciPy) (self : TestHypothesis) :
  (forall p_value : float,
      checkSignificance self p_value
      = ([Stdout (if PrimFloat.ltb p_value (significance_level self)
                  then msg_rejected else msg_not_rejected)],
         Ok (PrimFloat.ltb p_value (significance_level self), p_value)))
  /\ (forall op : operation,
        match outcome (perform self op) with
        | Ok (rejected, p_value) =>
            rejected = PrimFloat.ltb p_value (significance_level self)
        | Raise _ => True
        end).
Proof.
  split.
  - apply checkSignificance_run.
  - intros op. exact (verdict_perform self op).
Qed.

(** ** twoSampleTtest *)

(** C2.  When the two samples differ in length, [twoSampleTtest] raises the
    validation error whatever the samples, the [clt] flag and the library
    are, and the log is empty: no normality test, variance test or t
    statistic was computed. *)
Theorem twoSampleTtest_unequal_length
    (lib : SciPy) (self : TestHypothesis) (feature1 feature2 : sample) (clt : bool) :
  len feature1 <> len feature2 ->
  twoSampleTtest self feature1 feature2 clt
  = ([], Raise (ValueError "Samples are of different sizes")).
Proof.
  intros Hlen. unfold twoSampleTtest.
  apply Z.eqb_neq in Hlen. rewrite Hlen. reflexivity.
Qed.

Lemma twoSampleTtest_unequal_length_witness :
  len Double.normal3 <> len Double.skewed31
  /\ twoSampleTtest (lib := Double.scipy) Double.engine Double.normal3 Double.skewed31 true
     = ([], Raise (ValueError "Samples are of different sizes")).
Proof.
  assert (H : len Double.normal3 <> len Double.skewed31) by (vm_compute; discriminate).
  split; [exact H |].
  exact (twoSampleTtest_unequal_length Double.scipy Double.engine
           Double.normal3 Double.skewed31 true H).
Defined.

(** ** OneSampleTtest *)

(** C3.  On a sample that [isNormal] reports as not normal:
    without [clt] the test raises; with [clt] it raises a validation error
    exactly when the sample has at most 30 elements; above 30 the run goes on
    to [stats.ttest_1samp] and its outcome is that call's, passed through
    [checkSignificance]. *)
Theorem OneSampleTtest_normality_gate
    (lib : SciPy) (self : TestHypothesis) (feature : sample) (meu : float) :
  outcome (isNormal self feature) = Ok false ->
  OneSampleTtest self feature meu false
  = (trace (isNormal self feature),
     Raise (ValueError "Sample is not Normally distributed"))
  /\ (raises_ValueError (OneSampleTtest self feature meu true) <-> len feature <= 30)
  /\ (len feature <= 30 ->
      OneSampleTtest self feature meu true
      = (trace (isNormal self feature),
         Raise (ValueError "Unable to apply CLT for feature size < 30")))
  /\ (30 < len feature ->
      trace (OneSampleTtest self feature meu true)
      = trace (isNormal self feature)
        ++ trace ('(_, p_value) <- call Ttest_1samp (ttest_1samp feature meu) ;;
                  checkSignificance self p_value)
      /\ outcome (OneSampleTtest self feature meu true)
         = match ttest_1samp feature meu with
           | Returns (_, p_value) =>
               Ok (PrimFloat.ltb p_value (significance_level self), p_value)
           | Fails msg => Raise (LibraryError Ttest_1samp msg)
           end).
Proof.
  intros Hnormal.
  destruct (isNormal self feature) as [t r] eqn:E. simpl in Hnormal. subst r.
  assert (Hsmall : len feature <= 30 ->
                   OneSampleTtest self feature meu true
                   = (t, Raise (ValueError "Unable to apply CLT for feature size < 30"))).
  { intros Hle. unfold OneSampleTtest. rewrite (bind_Ok _ E). cbn [negb].
    apply Z.leb_le in Hle. rewrite Hle, bind_raise. simpl.
    rewrite app_nil_r. reflexivity. }
  assert (Hlarge : 30 < len feature ->
                   OneSampleTtest self feature meu true
                   = (t ++ trace ('(_, p_value) <- call Ttest_1samp (ttest_1samp feature meu) ;;
                                  checkSignificance self p_value),
                      outcome ('(_, p_value) <- call Ttest_1samp (ttest_1samp feature meu) ;;
                               checkSignificance self p_value))).
  { intros Hgt. unfold OneSampleTtest. rewrite (bind_Ok _ E). cbn [negb].
    apply Z.leb_gt in Hgt. rewrite Hgt, bind_ret. reflexivity. }
  assert (Hout : outcome ('(_, p_value) <- call Ttest_1samp (ttest_1samp feature meu) ;;
                          checkSignificance self p_value)
                 = match ttest_1samp feature meu with
                   | Returns (_, p_value) =>
                       Ok (PrimFloat.ltb p_value (significance_level self), p_value)
                   | Fails msg => Raise (LibraryError Ttest_1samp msg)
                   end).
  { destruct (ttest_1samp feature meu) as [[stat p] | msg]; simpl.
    - rewrite checkSignificance_run. reflexivity.
    - reflexivity. }
  split; [| split; [| split]].
  - unfold OneSampleTtest. rewrite (bind_Ok _ E). cbn [negb].
    rewrite bind_raise. simpl. rewrite app_nil_r. reflexivity.
  - split.
    + intros [msg Hraise].
      destruct (Z_le_gt_dec (len feature) 30) as [Hle | Hgt]; [exact Hle |].
      exfalso. rewrite Hlarge in Hraise by lia.
      change (outcome (?a, ?b)) with b in Hraise. rewrite Hout in Hraise.
      destruct (ttest_1samp feature meu) as [[stat p] | m]; discriminate.
    + intros Hle. rewrite (Hsmall Hle). eexists. reflexivity.
  - exact Hsmall.
  - intros Hgt. rewrite (Hlarge Hgt). split; [reflexivity |].
    exact Hout.
Qed.

Lemma OneSampleTtest_normality_gate_witness :
  outcome (isNormal (lib := Double.scipy) Double.engine Double.skewed31) = Ok false
  /\ outcome (OneSampleTtest (lib := Double.scipy) Double.engine Double.skewed31 0 true)
     = Ok (false, 0.5%float)
  /\ OneSampleTtest (lib := Double.scipy) Double.engine Double.skewed31 0 false
     = ([Called Shapiro], Raise (ValueError "Sample is not Normally distributed")).
Proof.
  assert (H : outcome (isNormal (lib := Double.scipy) Double.engine Double.skewed31)
              = Ok false) by reflexivity.
  split; [exact H |].
  pose proof (OneSampleTtest_normality_gate Double.scipy Double.engine
                Double.skewed31 0 H) as [Hno [_ [_ Hlarge]]].
  split.
  - destruct Hlarge as [_ Hout]; [vm_compute; reflexivity |]. exact Hout.
  - exact Hno.
Defined.

(** ** chiSquare *)

Lemma all_from_spec (P : Z -> bool) (n : nat) (start : Z) :
  all_from start n P = true ->
  forall z, start <= z < start + Z.of_nat n -> P z = true.
Proof.
  revert start. induction n as [| n IH]; intros start Hall z Hz.
  - simpl in Hz. lia.
  - simpl in Hall. apply andb_true_iff in Hall. destruct Hall as [Hhere Hrest].
    destruct (Z.eq_dec z start) as [-> | Hne]; [exact Hhere |].
    apply (IH (start + 1) Hrest). lia.
Qed.






Section ChiSquare.

Context {lib : SciPy}.
Variable self : TestHypothesis.

(** What [chiSquare] does once both library calls have returned. *)
Lemma chiSquare_run (feature1 feature2 : labels) (ct : table)
    (chi2 p_value : float) (dof : Z) (expected : ndarray) :
  crosstab feature1 feature2 = Returns ct ->
  chi2_contingency ct = Returns (chi2, p_value, dof, expected) ->
  chiSquare self feature1 feature2
  = if too_many_small expected
    then ([Called Crosstab; Called Chi2_contingency],
          Raise (ValueError msg_small_expected))
    else ([Called Crosstab; Called Chi2_contingency;
           Stdout (if PrimFloat.ltb p_value (significance_level self)
                   then msg_rejected else msg_not_rejected)],
          Ok (PrimFloat.ltb p_value (significance_level self), p_value)).
Proof.
  intros Hct Hchi. unfold chiSquare, call. rewrite Hct.
  rewrite (bind_Ok _ (a := ct) eq_refl). rewrite Hchi.
  rewrite (bind_Ok _ (a := (chi2, p_value, dof, expected)) eq_refl).
  destruct (too_many_small expected).
  - rewrite bind_raise. reflexivity.
  - rewrite bind_ret, checkSignificance_run. reflexivity.
Qed.

Lemma chiSquare_crosstab_fails (feature1 feature2 : labels) (msg : string) :
  crosstab feature1 feature2 = Fails msg ->
  chiSquare self feature1 feature2
  = ([Called Crosstab], Raise (LibraryError Crosstab msg)).
Proof. intros Hct. unfold chiSquare, call. rewrite Hct. reflexivity. Qed.

Lemma chiSquare_chi2_fails (feature1 feature2 : labels) (ct : table) (msg : string) :
  crosstab feature1 feature2 = Returns ct ->
  chi2_contingency ct = Fails msg ->
  chiSquare self feature1 feature2
  = ([Called Crosstab; Called Chi2_contingency],
     Raise (LibraryError Chi2_contingency msg)).
Proof.
  intros Hct Hchi. unfold chiSquare, call. rewrite Hct.
  rewrite (bind_Ok _ (a := ct) eq_refl). rewrite Hchi. reflexivity.
Qed.

End ChiSquare.


(** ** isNormal and the normality loops *)

Section Normality.

Context {lib : SciPy}.
Variable self : TestHypothesis.

Lemma isNormal_run (feature : sample) :
  isNormal self feature
  = ([Called (normality_test feature)],
     match normality_answer feature with
     | Returns (_, p_value) => Ok (gtb p_value (significance_level self))
     | Fails msg => Raise (LibraryError (normality_test feature) msg)
     end).
Proof.
  unfold isNormal, normality_test, normality_answer.
  destruct (len feature >? 5000).
  - destruct (kstest feature (np_mean feature) (np_std feature)) as [[stat p] | msg];
      reflexivity.
  - destruct (shapiro feature) as [[stat p] | msg]; reflexivity.
Qed.

Lemma isNormal_trace (feature : sample) :
  trace (isNormal self feature) = [Called (normality_test feature)].
Proof. rewrite isNormal_run. reflexivity. Qed.

Lemma isNormal_raises (feature : sample) (e : exn) :
  outcome (isNormal self feature) = Raise e ->
  exists msg, e = LibraryError (normality_test feature) msg.
Proof.
  rewrite isNormal_run. simpl.
  destruct (normality_answer feature) as [[stat p] | msg]; [discriminate |].
  intros [= <-]. exists msg. reflexivity.
Qed.

Lemma computes_statistic_normality_test (feature : sample) :
  computes_statistic (Called (normality_test feature)) = false.
Proof. unfold normality_test. destruct (len feature >? 5000); reflexivity. Qed.

(** One step of the generator behind [any]. *)
Lemma any_not_normal_cons (f : sample) (rest : list sample) :
  any_not_normal self (f :: rest)
  = match outcome (isNormal self f) with
    | Ok true => (Called (normality_test f) :: trace (any_not_normal self rest),
                  outcome (any_not_normal self rest))
    | Ok false => ([Called (normality_test f)], Ok true)
    | Raise e => ([Called (normality_test f)], Raise e)
    end.
Proof.
  cbn [any_not_normal]. rewrite isNormal_run. cbn [outcome snd].
  destruct (normality_answer f) as [[stat p] | msg]; [| reflexivity].
  rewrite (bind_Ok _ eq_refl).
  destruct (gtb p (significance_level self)); reflexivity.
Qed.

Lemma any_not_normal_true (features : list sample) :
  outcome (any_not_normal self features) = Ok true ->
  exists f, In f features /\ outcome (isNormal self f) = Ok false.
Proof.
  induction features as [| f rest IH].
  - discriminate.
  - rewrite any_not_normal_cons.
    destruct (outcome (isNormal self f)) as [[|] | e] eqn:E; cbn [outcome snd].
    + intros H. destruct (IH H) as [g [Hin Hg]]. exists g. split; [right; exact Hin | exact Hg].
    + intros _. exists f. split; [left; reflexivity | exact E].
    + discriminate.
Qed.

Lemma any_not_normal_false (features : list sample) :
  outcome (any_not_normal self features) = Ok false ->
  forall f, In f features -> outcome (isNormal self f) = Ok true.
Proof.
  induction features as [| f rest IH].
  - intros _ g [].
  - rewrite any_not_normal_cons.
    destruct (outcome (isNormal self f)) as [[|] | e] eqn:E; cbn [outcome snd];
      try discriminate.
    intros H g [<- | Hin]; [exact E | exact (IH H g Hin)].
Qed.

Lemma any_not_normal_raises (features : list sample) (e : exn) :
  outcome (any_not_normal self features) = Raise e ->
  exists fn msg, e = LibraryError fn msg.
Proof.
  induction features as [| f rest IH].
  - discriminate.
  - rewrite any_not_normal_cons.
    destruct (outcome (isNormal self f)) as [[|] | e'] eqn:E; cbn [outcome snd].
    + exact IH.
    + discriminate.
    + intros [= <-]. destruct (isNormal_raises _ E) as [msg ->]. eauto.
Qed.

Lemma any_not_normal_total (features : list sample) :
  (forall f, In f features -> returns_normally (isNormal self f)) ->
  returns_normally (any_not_normal self features).
Proof.
  induction features as [| f rest IH]; intros Hall.
  - exists false. reflexivity.
  - rewrite any_not_normal_cons.
    destruct (Hall f (or_introl eq_refl)) as [b Hb]. rewrite Hb.
    destruct b.
    + apply IH. intros g Hg. apply Hall. right. exact Hg.
    + exists true. reflexivity.
Qed.

Lemma any_not_normal_quiet (features : list sample) :
  Forall (fun ev => computes_statistic ev = false) (trace (any_not_normal self features)).
Proof.
  induction features as [| f rest IH].
  - constructor.
  - rewrite any_not_normal_cons.
    destruct (outcome (isNormal self f)) as [[|] | e]; cbn [trace fst];
      repeat constructor; auto using computes_statistic_normality_test.
Qed.

End Normality.

(** ** hasEqualVariance *)

Section Variance.

Context {lib : SciPy}.
Variable self : TestHypothesis.

Lemma hasEqualVariance_levene_run (features : list sample) :
  hasEqualVariance self features "levene"
  = ([Called Levene],
     match levene features with
     | Returns (_, p_value) => Ok (gtb p_value (significance_level self))
     | Fails msg => Raise (LibraryError Levene msg)
     end).
Proof.
  unfold hasEqualVariance. cbn [String.eqb Ascii.eqb Bool.eqb].
  destruct (levene features) as [[stat p] | msg]; reflexivity.
Qed.

Lemma hasEqualVariance_bartlett_run (features : list sample) :
  hasEqualVariance self features "bartlett"
  = match outcome (any_not_normal self features) with
    | Ok true =>
        (trace (any_not_normal self features),
         Raise (ValueError "Bartlett's test requires normality."))
    | Ok false =>
        (trace (any_not_normal self features) ++ [Called Bartlett],
         match bartlett features with
         | Returns (_, p_value) => Ok (gtb p_value (significance_level self))
         | Fails msg => Raise (LibraryError Bartlett msg)
         end)
    | Raise e => (trace (any_not_normal self features), Raise e)
    end.
Proof.
  unfold hasEqualVariance. cbn [String.eqb Ascii.eqb Bool.eqb].
  destruct (any_not_normal self features) as [t [[|] | e]]; cbn [outcome trace fst snd].
  - simpl. rewrite app_nil_r. reflexivity.
  - destruct (bartlett features) as [[stat p] | msg];
      simpl; rewrite ?app_nil_r; reflexivity.
  - reflexivity.
Qed.

End Variance.

(** C6.  With method "bartlett", provided the normality test returns on
    every sample, [hasEqualVariance] raises a validation error exactly when
    some sample fails [isNormal], and the error is the Bartlett one.  With
    the default method "levene" the only library call is [stats.levene]: no
    normality test runs, and the outcome is levene's, so no validation error
    arises.  When a value is returned, it is [p_value > alpha] for the
    p-value of the variance test. *)
Theorem hasEqualVariance_methods
    (lib : SciPy) (self : TestHypothesis) (features : list sample) :
  ((forall f, In f features -> returns_normally (isNormal self f)) ->
   (raises_ValueError (hasEqualVariance self features "bartlett")
    <-> exists f, In f features /\ outcome (isNormal self f) = Ok false))
  /\ (raises_ValueError (hasEqualVariance self features "bartlett") ->
      outcome (hasEqualVariance self features "bartlett")
      = Raise (ValueError "Bartlett's test requires normality."))
  /\ hasEqualVariance self features "levene"
     = ([Called Levene],
        match levene features with
        | Returns (_, p_value) => Ok (gtb p_value (significance_level self))
        | Fails msg => Raise (LibraryError Levene msg)
        end)
  /\ (forall equal_var : bool,
        outcome (hasEqualVariance self features "bartlett") = Ok equal_var ->
        exists stat p_value,
          bartlett features = Returns (stat, p_value)
          /\ equal_var = gtb p_value (significance_level self)).
Proof.
  split; [| split; [| split]].
  - intros Hall. rewrite hasEqualVariance_bartlett_run. split.
    + intros [msg Hraise].
      destruct (outcome (any_not_normal self features)) as [[|] | e] eqn:E.
      * apply any_not_normal_true. exact E.
      * cbn [outcome snd] in Hraise.
        destruct (bartlett features) as [[stat p] | m]; discriminate.
      * cbn [outcome snd] in Hraise.
        destruct (any_not_normal_raises _ _ E) as (fn & m & ->). discriminate.
    + intros [f [Hin Hf]].
      destruct (any_not_normal_total self features Hall) as [b Hb]. rewrite Hb.
      destruct b.
      * eexists. reflexivity.
      * pose proof (any_not_normal_false _ _ Hb f Hin) as Htrue. congruence.
  - rewrite hasEqualVariance_bartlett_run. intros [msg Hraise].
    destruct (outcome (any_not_normal self features)) as [[|] | e] eqn:E.
    + reflexivity.
    + cbn [outcome snd] in Hraise.
      destruct (bartlett features) as [[stat p] | m]; discriminate.
    + cbn [outcome snd] in Hraise.
      destruct (any_not_normal_raises _ _ E) as (fn & m & ->). discriminate.
  - apply hasEqualVariance_levene_run.
  - intros equal_var. rewrite hasEqualVariance_bartlett_run.
    destruct (outcome (any_not_normal self features)) as [[|] | e];
      cbn [outcome snd]; try discriminate.
    destruct (bartlett features) as [[stat p] | m]; [| discriminate].
    intros [= <-]. exists stat, p. split; reflexivity.
Qed.

Lemma hasEqualVariance_methods_witness :
  raises_ValueError
    (hasEqualVariance (lib := Double.scipy) Double.engine
       [Double.normal3; Double.skewed3] "bartlett")
  /\ outcome (hasEqualVariance (lib := Double.scipy) Double.engine
                [Double.normal3; Double.normal3] "bartlett") = Ok true.
Proof.
  split.
  - apply (proj1 (hasEqualVariance_methods Double.scipy Double.engine
                    [Double.normal3; Double.skewed3])).
    + intros f [<- | [<- | []]]; eexists; reflexivity.
    + exists Double.skewed3. split; [right; left; reflexivity | reflexivity].
  - reflexivity.
Defined.

(** ** pearsonCorrelation *)

Section Pearson.

Context {lib : SciPy}.
Variable self : TestHypothesis.

(** [not self.isNormal(feature1) or not self.isNormal(feature2)]: the second
    sample is tested only when the first is normal. *)
Lemma either_not_normal_run (feature1 feature2 : sample) :
  orM (notM (isNormal self feature1)) (notM (isNormal self feature2))
  = match outcome (isNormal self feature1) with
    | Ok false => ([Called (normality_test feature1)], Ok true)
    | Ok true =>
        ([Called (normality_test feature1); Called (normality_test feature2)],
         match outcome (isNormal self feature2) with
         | Ok normal => Ok (negb normal)
         | Raise e => Raise e
         end)
    | Raise e => ([Called (normality_test feature1)], Raise e)
    end.
Proof.
  unfold orM, notM. rewrite !isNormal_run. cbn [outcome snd].
  destruct (normality_answer feature1) as [[stat1 p1] | msg1]; [| reflexivity].
  destruct (normality_answer feature2) as [[stat2 p2] | msg2];
    destruct (gtb p1 (significance_level self)); reflexivity.
Qed.

Lemma pearsonCorrelation_unequal (feature1 feature2 : sample) :
  len feature1 <> len feature2 ->
  pearsonCorrelation self feature1 feature2
  = ([], Raise (ValueError msg_lengths_not_equal)).
Proof.
  intros Hlen. unfold pearsonCorrelation.
  apply Z.eqb_neq in Hlen. rewrite Hlen. reflexivity.
Qed.

Lemma pearsonCorrelation_zero_variance (feature1 feature2 : sample) :
  len feature1 = len feature2 ->
  PrimFloat.eqb (np_var feature1) 0 || PrimFloat.eqb (np_var feature2) 0 = true ->
  pearsonCorrelation self feature1 feature2
  = ([], Raise (ValueError msg_zero_variance)).
Proof.
  intros Hlen Hvar. unfold pearsonCorrelation.
  apply Z.eqb_eq in Hlen. rewrite Hlen. cbn [negb]. rewrite bind_ret.
  rewrite Hvar. reflexivity.
Qed.

Lemma pearsonCorrelation_not_normal (feature1 feature2 : sample) :
  len feature1 = len feature2 ->
  PrimFloat.eqb (np_var feature1) 0 || PrimFloat.eqb (np_var feature2) 0 = false ->
  outcome (orM (notM (isNormal self feature1)) (notM (isNormal self feature2)))
  = Ok true ->
  pearsonCorrelation self feature1 feature2
  = (trace (orM (notM (isNormal self feature1)) (notM (isNormal self feature2))),
     Raise (ValueError "Samples are not normally distributed.")).
Proof.
  intros Hlen Hvar Hnot. unfold pearsonCorrelation.
  apply Z.eqb_eq in Hlen. rewrite Hlen. cbn [negb]. rewrite bind_ret.
  rewrite Hvar, bind_ret.
  destruct (orM (notM (isNormal self feature1)) (notM (isNormal self feature2)))
    as [t r] eqn:E.
  cbn [outcome snd] in Hnot. subst r.
  rewrite (bind_Ok _ eq_refl). rewrite bind_raise. simpl.
  rewrite app_nil_r. reflexivity.
Qed.

End Pearson.

(** C7.  When either sample has zero sample variance, [pearsonCorrelation]
    raises a validation error before any library routine is called,
    whatever the other sample is.  The preconditions are checked in the
    order length, variance, normality: unequal lengths raise the length
    error whatever the variances are; with equal lengths a zero variance
    raises the variance error whatever the normality tests would say; with
    equal lengths and non-zero variances a sample that is not normal raises
    the normality error, and [stats.pearsonr] has not been called. *)
Theorem pearsonCorrelation_preconditions
    (lib : SciPy) (self : TestHypothesis) (feature1 feature2 : sample) :
  (PrimFloat.eqb (np_var feature1) 0 = true \/ PrimFloat.eqb (np_var feature2) 0 = true ->
   raises_ValueError (pearsonCorrelation self feature1 feature2)
   /\ trace (pearsonCorrelation self feature1 feature2) = [])
  /\ (len feature1 <> len feature2 ->
      pearsonCorrelation self feature1 feature2
      = ([], Raise (ValueError msg_lengths_not_equal)))
  /\ (len feature1 = len feature2 ->
      PrimFloat.eqb (np_var feature1) 0 = true \/ PrimFloat.eqb (np_var feature2) 0 = true ->
      pearsonCorrelation self feature1 feature2
      = ([], Raise (ValueError msg_zero_variance)))
  /\ (len feature1 = len feature2 ->
      PrimFloat.eqb (np_var feature1) 0 = false ->
      PrimFloat.eqb (np_var feature2) 0 = false ->
      outcome (isNormal self feature1) = Ok false
      \/ (outcome (isNormal self feature1) = Ok true
          /\ outcome (isNormal self feature2) = Ok false) ->
      outcome (pearsonCorrelation self feature1 feature2)
      = Raise (ValueError "Samples are not normally distributed.")
      /\ Forall (fun ev => computes_statistic ev = false)
                (trace (pearsonCorrelation self feature1 feature2))).
Proof.
  assert (Hor : PrimFloat.eqb (np_var feature1) 0 = true
                \/ PrimFloat.eqb (np_var feature2) 0 = true ->
                PrimFloat.eqb (np_var feature1) 0 || PrimFloat.eqb (np_var feature2) 0
                = true).
  { intros [H | H]; rewrite H; [reflexivity | apply orb_true_r]. }
  split; [| split; [| split]].
  - intros Hvar.
    destruct (Z.eq_dec (len feature1) (len feature2)) as [Hlen | Hlen].
    + rewrite (pearsonCorrelation_zero_variance self _ _ Hlen (Hor Hvar)).
      split; [eexists |]; reflexivity.
    + rewrite (pearsonCorrelation_unequal self _ _ Hlen).
      split; [eexists |]; reflexivity.
  - apply pearsonCorrelation_unequal.
  - intros Hlen Hvar. apply pearsonCorrelation_zero_variance; auto.
  - intros Hlen Hvar1 Hvar2 Hnot.
    assert (Heither :
              outcome (orM (notM (isNormal self feature1)) (notM (isNormal self feature2)))
              = Ok true
              /\ Forall (fun ev => computes_statistic ev = false)
                        (trace (orM (notM (isNormal self feature1))
                                    (notM (isNormal self feature2))))).
    { rewrite either_not_normal_run.
      destruct Hnot as [H1 | [H1 H2]]; rewrite H1; [| rewrite H2];
        (split; [reflexivity |]);
        repeat constructor; apply computes_statistic_normality_test. }
    destruct Heither as [Hout Hquiet].
    rewrite (pearsonCorrelation_not_normal self _ _ Hlen); auto.
    rewrite Hvar1, Hvar2. reflexivity.
Qed.

Lemma pearsonCorrelation_preconditions_witness :
  PrimFloat.eqb (np_var (SciPy := Double.scipy) Double.constant3) 0 = true
  /\ pearsonCorrelation (lib := Double.scipy) Double.engine Double.constant3 Double.skewed3
     = ([], Raise (ValueError msg_zero_variance)).
Proof.
  assert (H : PrimFloat.eqb (np_var (SciPy := Double.scipy) Double.constant3) 0 = true)
    by reflexivity.
  split; [exact H |].
  apply (proj1 (proj2 (proj2 (pearsonCorrelation_preconditions
                                Double.scipy Double.engine
                                Double.constant3 Double.skewed3)))).
  - reflexivity.
  - left. exact H.
Defined.

(** ** ANOVA *)

Section Anova.

Context {lib : SciPy}.
Variable self : TestHypothesis.

(** The first loop warns once if some length differs from [n], and returns. *)
Lemma warn_unequal_length_run (n : Z) (features : list sample) :
  warn_unequal_length n features
  = if forallb (fun feature => len feature =? n) features
    then ret tt
    else warn msg_unequal_length.
Proof.
  induction features as [| feature rest IH]; [reflexivity |].
  cbn [warn_unequal_length forallb].
  destruct (len feature =? n); [exact IH | reflexivity].
Qed.

Lemma some_length_differs (feature0 : sample) (features : list sample) (f g : sample) :
  In f features -> In g features -> len f <> len g ->
  forallb (fun feature => len feature =? len feature0) features = false.
Proof.
  intros Hf Hg Hne.
  destruct (forallb (fun feature => len feature =? len feature0) features) eqn:E;
    [| reflexivity].
  rewrite forallb_forall in E.
  pose proof (E f Hf) as Ef. pose proof (E g Hg) as Eg.
  apply Z.eqb_eq in Ef, Eg. congruence.
Qed.

Lemma ANOVA_run (feature0 : sample) (rest : list sample) (clt : bool) :
  ANOVA self (feature0 :: rest) clt
  = if forallb (fun feature => len feature =? len feature0) (feature0 :: rest)
    then ANOVA_checks_and_test self (feature0 :: rest) clt
    else (UserWarning msg_unequal_length
            :: trace (ANOVA_checks_and_test self (feature0 :: rest) clt),
          outcome (ANOVA_checks_and_test self (feature0 :: rest) clt)).
Proof.
  unfold ANOVA. rewrite warn_unequal_length_run.
  destruct (forallb (fun feature => len feature =? len feature0) (feature0 :: rest)).
  - rewrite bind_ret. reflexivity.
  - unfold warn. rewrite (bind_Ok _ eq_refl). reflexivity.
Qed.

Lemma ANOVA_outcome (feature0 : sample) (rest : list sample) (clt : bool) :
  outcome (ANOVA self (feature0 :: rest) clt)
  = outcome (ANOVA_checks_and_test self (feature0 :: rest) clt).
Proof.
  rewrite ANOVA_run.
  destruct (forallb (fun feature => len feature =? len feature0) (feature0 :: rest));
    reflexivity.
Qed.

(** One iteration of the second loop. *)
Lemma require_normal_cons (clt : bool) (feature : sample) (rest : list sample) :
  outcome (require_normal self clt (feature :: rest))
  = match outcome (isNormal self feature) with
    | Ok true => outcome (require_normal self clt rest)
    | Ok false =>
        if negb clt
        then Raise (ValueError "Sample is not Normally distributed")
        else if len feature <=? 30
             then Raise (ValueError "Unable to apply CLT for feature size < 30")
             else outcome (require_normal self clt rest)
    | Raise e => Raise e
    end.
Proof.
  cbn [require_normal].
  destruct (isNormal self feature) as [t [[|] | e]] eqn:E; cbn [outcome snd].
  - rewrite (outcome_bind_Ok (t, Ok true) _ (a := true) eq_refl). cbn [negb].
    rewrite bind_ret. reflexivity.
  - rewrite (outcome_bind_Ok (t, Ok false) _ (a := false) eq_refl). cbn [negb].
    destruct (negb clt); [reflexivity |].
    destruct (len feature <=? 30); [reflexivity |].
    rewrite bind_ret. reflexivity.
  - reflexivity.
Qed.

Lemma require_normal_passes (clt : bool) (features : list sample) :
  (forall g, In g features ->
             outcome (isNormal self g) = Ok true
             \/ (clt = true /\ outcome (isNormal self g) = Ok false /\ 30 < len g)) ->
  outcome (require_normal self clt features) = Ok tt.
Proof.
  induction features as [| g rest IH]; intros Hall; [reflexivity |].
  rewrite require_normal_cons.
  assert (Hrest : outcome (require_normal self clt rest) = Ok tt).
  { apply IH. intros h Hh. apply Hall. right. exact Hh. }
  destruct (Hall g (or_introl eq_refl)) as [-> | (-> & -> & Hlen)]; [exact Hrest |].
  cbn [negb]. apply Z.leb_gt in Hlen. rewrite Hlen. exact Hrest.
Qed.

Lemma require_normal_outcome (clt : bool) (features : list sample) :
  (forall g, In g features -> returns_normally (isNormal self g)) ->
  outcome (require_normal self clt features) = Ok tt
  \/ outcome (require_normal self clt features)
     = Raise (ValueError "Sample is not Normally distributed")
  \/ outcome (require_normal self clt features)
     = Raise (ValueError "Unable to apply CLT for feature size < 30").
Proof.
  induction features as [| g rest IH]; intros Hall; [left; reflexivity |].
  rewrite require_normal_cons.
  assert (Hrest := IH (fun h Hh => Hall h (or_intror Hh))).
  destruct (Hall g (or_introl eq_refl)) as [[|] ->]; [exact Hrest |].
  destruct (negb clt); [right; left; reflexivity |].
  destruct (len g <=? 30); [right; right; reflexivity | exact Hrest].
Qed.

(** [ANOVA] after the second loop has passed. *)
Lemma ANOVA_checks_after_loop (features : list sample) (clt : bool) :
  outcome (require_normal self clt features) = Ok tt ->
  outcome (ANOVA_checks_and_test self features clt)
  = match outcome (hasEqualVariance self features "bartlett") with
    | Ok _ =>
        match f_oneway features with
        | Returns (_, p_value) =>
            Ok (PrimFloat.ltb p_value (significance_level self), p_value)
        | Fails msg => Raise (LibraryError F_oneway msg)
        end
    | Raise e => Raise e
    end.
Proof.
  intros Hloop. unfold ANOVA_checks_and_test.
  rewrite (outcome_bind_Ok _ _ Hloop).
  destruct (hasEqualVariance self features "bartlett") as [t [b | e]];
    cbn [outcome snd]; [| reflexivity].
  rewrite (outcome_bind_Ok (t, Ok b) _ (a := b) eq_refl).
  unfold call. destruct (f_oneway features) as [[stat p] | msg]; [| reflexivity].
  rewrite (outcome_bind_Ok ([Called F_oneway], Ok (stat, p)) _ (a := (stat, p)) eq_refl).
  rewrite checkSignificance_run. reflexivity.
Qed.

Lemma ANOVA_checks_loop_raises (features : list sample) (clt : bool) (e : exn) :
  outcome (require_normal self clt features) = Raise e ->
  outcome (ANOVA_checks_and_test self features clt) = Raise e.
Proof.
  intros Hloop. unfold ANOVA_checks_and_test.
  apply (outcome_bind_Raise _ _ Hloop).
Qed.

Lemma bartlett_refuses (features : list sample) (f : sample) :
  In f features -> outcome (isNormal self f) = Ok false ->
  forall equal_var, outcome (hasEqualVariance self features "bartlett") <> Ok equal_var.
Proof.
  intros Hin Hf equal_var. rewrite hasEqualVariance_bartlett_run.
  destruct (outcome (any_not_normal self features)) as [[|] | e] eqn:E;
    cbn [outcome snd]; try discriminate.
  pose proof (any_not_normal_false _ _ E f Hin). congruence.
Qed.

Lemma bartlett_raises (features : list sample) (f : sample) :
  In f features -> outcome (isNormal self f) = Ok false ->
  (forall g, In g features -> returns_normally (isNormal self g)) ->
  outcome (hasEqualVariance self features "bartlett")
  = Raise (ValueError "Bartlett's test requires normality.").
Proof.
  intros Hin Hf Hall. rewrite hasEqualVariance_bartlett_run.
  destruct (any_not_normal_total self features Hall) as [[|] Hb]; rewrite Hb.
  - reflexivity.
  - pose proof (any_not_normal_false _ _ Hb f Hin). congruence.
Qed.

End Anova.

(** C9.  When two of the samples differ in size, [ANOVA] emits the advisory
    warning and then runs exactly what it runs otherwise: its log is the
    warning followed by the log of the normality loop, the variance check
    and the F-test, and its outcome is theirs.  In general a warning adds an
    event to the log and hands over to the rest of the operation, whereas a
    raised error is the outcome and nothing after it runs. *)
Theorem ANOVA_unequal_sizes_warn
    (lib : SciPy) (self : TestHypothesis) (features : list sample) (clt : bool)
    (f g : sample) :
  In f features -> In g features -> len f <> len g ->
  ANOVA self features clt
  = (UserWarning msg_unequal_length :: trace (ANOVA_checks_and_test self features clt),
     outcome (ANOVA_checks_and_test self features clt))
  /\ (forall (A : Type) (msg : string) (rest : M A),
        bind (warn msg) (fun _ => rest) = (UserWarning msg :: trace rest, outcome rest))
  /\ (forall (A B : Type) (e : exn) (rest : A -> M B),
        bind (raise e) rest = ([], Raise e)).
Proof.
  intros Hf Hg Hne. split; [| split].
  - destruct features as [| feature0 rest]; [destruct Hf |].
    rewrite ANOVA_run.
    rewrite (some_length_differs feature0 (feature0 :: rest) f g Hf Hg Hne).
    reflexivity.
  - intros A msg rest. unfold warn. rewrite (bind_Ok _ eq_refl). reflexivity.
  - intros A B e rest. reflexivity.
Qed.

Lemma ANOVA_unequal_sizes_warn_witness :
  ANOVA (lib := Double.scipy) Double.engine
    [Double.normal3; [0.9; 1.5]%float ++ Double.normal3] false
  = ([UserWarning msg_unequal_length;
      Called Shapiro; Called Shapiro; Called Shapiro; Called Shapiro;
      Called Bartlett; Called F_oneway; Stdout msg_rejected],
     Ok (true, 0.01%float)).
Proof.
  refine (eq_trans
            (proj1 (ANOVA_unequal_sizes_warn Double.scipy Double.engine
                      [Double.normal3; [0.9; 1.5]%float ++ Double.normal3] false
                      Double.normal3 ([0.9; 1.5]%float ++ Double.normal3) _ _ _))
            _).
  - left. reflexivity.
  - right. left. reflexivity.
  - vm_compute. discriminate.
  - reflexivity.
Defined.

(** C10.  When some sample fails [isNormal], [ANOVA] never returns a
    result, with or without [clt]: a sample that gets past the loop (size
    above 30 under [clt]) is tested again by
    [hasEqualVariance(..., method="bartlett")], which raises.  Provided the
    normality test returns on every sample, the exception is one of the
    three validation errors, and it is the Bartlett one when [clt] is set
    and every sample that is not normal has more than 30 elements. *)
Theorem ANOVA_non_normal_never_returns
    (lib : SciPy) (self : TestHypothesis) (features : list sample) (clt : bool)
    (f : sample) :
  In f features -> outcome (isNormal self f) = Ok false ->
  ~ returns_normally (ANOVA self features clt)
  /\ ((forall g, In g features -> returns_normally (isNormal self g)) ->
      outcome (ANOVA self features clt)
      = Raise (ValueError "Sample is not Normally distributed")
      \/ outcome (ANOVA self features clt)
         = Raise (ValueError "Unable to apply CLT for feature size < 30")
      \/ outcome (ANOVA self features clt)
         = Raise (ValueError "Bartlett's test requires normality."))
  /\ ((forall g, In g features -> returns_normally (isNormal self g)) ->
      clt = true ->
      (forall g, In g features -> outcome (isNormal self g) = Ok false -> 30 < len g) ->
      outcome (ANOVA self features clt)
      = Raise (ValueError "Bartlett's test requires normality.")).
Proof.
  intros Hin Hf.
  destruct features as [| feature0 rest]; [destruct Hin |].
  rewrite ANOVA_outcome.
  split; [| split].
  - intros [r Hr]. rewrite ANOVA_outcome in Hr.
    destruct (outcome (require_normal self clt (feature0 :: rest))) as [[] | e] eqn:Hloop.
    + rewrite (ANOVA_checks_after_loop self _ _ Hloop) in Hr.
      destruct (outcome (hasEqualVariance self (feature0 :: rest) "bartlett"))
        as [b | e] eqn:Hvar; [| discriminate].
      exact (bartlett_refuses self _ _ Hin Hf Hvar).
    + rewrite (ANOVA_checks_loop_raises self _ _ Hloop) in Hr. discriminate.
  - intros Hall.
    destruct (require_normal_outcome self clt _ Hall) as [Hloop | [Hloop | Hloop]].
    + right. right. rewrite (ANOVA_checks_after_loop self _ _ Hloop).
      rewrite (bartlett_raises self _ _ Hin Hf Hall). reflexivity.
    + left. exact (ANOVA_checks_loop_raises self _ _ Hloop).
    + right. left. exact (ANOVA_checks_loop_raises self _ _ Hloop).
  - intros Hall -> Hlarge.
    assert (Hloop : outcome (require_normal self true (feature0 :: rest)) = Ok tt).
    { apply require_normal_passes. intros g Hg.
      destruct (Hall g Hg) as [[|] Hb]; [left; exact Hb |].
      right. split; [reflexivity | split; [exact Hb | exact (Hlarge g Hg Hb)]]. }
    rewrite (ANOVA_checks_after_loop self _ _ Hloop).
    rewrite (bartlett_raises self _ _ Hin Hf Hall). reflexivity.
Qed.

Lemma ANOVA_non_normal_never_returns_witness :
  outcome (isNormal (lib := Double.scipy) Double.engine Double.skewed31) = Ok false
  /\ 30 < len Double.skewed31
  /\ outcome (ANOVA (lib := Double.scipy) Double.engine
                [Double.normal3; Double.skewed31] true)
     = Raise (ValueError "Bartlett's test requires normality.").
Proof.
  assert (H : outcome (isNormal (lib := Double.scipy) Double.engine Double.skewed31)
              = Ok false) by reflexivity.
  split; [exact H |]. split; [reflexivity |].
  apply (proj2 (proj2 (ANOVA_non_normal_never_returns Double.scipy Double.engine
                         [Double.normal3; Double.skewed31] true Double.skewed31
                         (or_intror (or_introl eq_refl)) H))).
  - intros g [<- | [<- | []]]; eexists; reflexivity.
  - reflexivity.
  - intros g [<- | [<- | []]]; [discriminate | reflexivity].
Defined.

(** ** Validation errors and test statistics *)

Section ValidatesFirst.

Context {lib : SciPy}.
Variable self : TestHypothesis.

Lemma checks_only_ret {A : Type} (a : A) : checks_only (ret a).
Proof. constructor. Qed.

Lemma checks_only_raise {A : Type} (e : exn) : checks_only (raise (A := A) e).
Proof. constructor. Qed.

Lemma checks_only_warn (msg : string) : checks_only (warn msg).
Proof. repeat constructor. Qed.

Lemma checks_only_isNormal (feature : sample) : checks_only (isNormal self feature).
Proof.
  unfold checks_only. rewrite isNormal_trace.
  repeat constructor. apply computes_statistic_normality_test.
Qed.

Lemma checks_only_crosstab (r : answer table) : checks_only (call Crosstab r).
Proof. repeat constructor. Qed.

Lemma checks_only_bind {A B : Type} (m : M A) (k : A -> M B) :
  checks_only m -> (forall a, checks_only (k a)) -> checks_only (bind m k).
Proof.
  intros Hm Hk. destruct m as [t [a | e]].
  - rewrite (bind_Ok _ eq_refl). apply Forall_app. split; [exact Hm | apply Hk].
  - exact Hm.
Qed.

Lemma no_validation_error_ret {A : Type} (a : A) : no_validation_error (ret a).
Proof. intros msg. discriminate. Qed.

Lemma no_validation_error_warn (msg : string) : no_validation_error (warn msg).
Proof. intros m. discriminate. Qed.

Lemma no_validation_error_call {A : Type} (fn : libfn) (r : answer A) :
  no_validation_error (call fn r).
Proof. intros msg. destruct r; discriminate. Qed.

Lemma no_validation_error_check (p_value : float) :
  no_validation_error (checkSignificance self p_value).
Proof. intros msg. rewrite checkSignificance_run. discriminate. Qed.

Lemma no_validation_error_bind {A B : Type} (m : M A) (k : A -> M B) :
  no_validation_error m -> (forall a, no_validation_error (k a)) ->
  no_validation_error (bind m k).
Proof.
  intros Hm Hk msg. destruct m as [t [a | e]].
  - rewrite (bind_Ok _ eq_refl). apply Hk.
  - cbn [bind outcome snd]. intros [= ->]. exact (Hm msg eq_refl).
Qed.

Lemma no_validation_error_levene (features : list sample) :
  no_validation_error (hasEqualVariance self features "levene").
Proof.
  intros msg. rewrite hasEqualVariance_levene_run. cbn [outcome snd].
  destruct (levene features) as [[stat p] | m]; discriminate.
Qed.

Lemma validates_first_never {A : Type} (m : M A) :
  no_validation_error m -> validates_first m.
Proof. intros H msg Hraise. destruct (H msg Hraise). Qed.

Lemma validates_first_checks {A : Type} (m : M A) : checks_only m -> validates_first m.
Proof. intros H msg _. exact H. Qed.

Lemma validates_first_bind_checks {A B : Type} (m : M A) (k : A -> M B) :
  checks_only m -> (forall a, validates_first (k a)) -> validates_first (bind m k).
Proof.
  intros Hm Hk msg. destruct m as [t [a | e]].
  - rewrite (bind_Ok _ eq_refl). cbn [outcome trace fst snd]. intros Hraise.
    apply Forall_app. split; [exact Hm | exact (Hk a msg Hraise)].
  - intros _. exact Hm.
Qed.

Lemma validates_first_bind_never {A B : Type} (m : M A) (k : A -> M B) :
  validates_first m -> (forall a, no_validation_error (k a)) ->
  validates_first (bind m k).
Proof.
  intros Hm Hk msg. destruct m as [t [a | e]].
  - rewrite (bind_Ok _ eq_refl). cbn [outcome snd]. intros Hraise.
    destruct (Hk a msg Hraise).
  - cbn [bind outcome snd]. intros [= ->]. exact (Hm msg eq_refl).
Qed.

Ltac split_scrutinee :=
  match goal with
  | |- context [if ?c then _ else _] => destruct c
  | |- context [match ?x with (_, _) => _ end] => destruct x
  end.

Ltac checks :=
  solve
    [ apply checks_only_ret
    | apply checks_only_raise
    | apply checks_only_warn
    | apply checks_only_isNormal
    | apply checks_only_crosstab
    | apply checks_only_bind; [checks | intros; checks]
    | split_scrutinee; checks ].

Ltac harmless :=
  solve
    [ apply no_validation_error_ret
    | apply no_validation_error_warn
    | apply no_validation_error_call
    | apply no_validation_error_check
    | apply no_validation_error_levene
    | apply no_validation_error_bind; [harmless | intros; harmless]
    | split_scrutinee; harmless ].

Ltac validates :=
  solve
    [ apply validates_first_never; harmless
    | apply validates_first_checks; checks
    | apply validates_first_bind_checks; [checks | intros; validates]
    | apply validates_first_bind_never; [validates | intros; harmless]
    | split_scrutinee; validates ].

Lemma checks_only_any_not_normal (features : list sample) :
  checks_only (any_not_normal self features).
Proof. apply any_not_normal_quiet. Qed.

Lemma checks_only_require_normal (clt : bool) (features : list sample) :
  checks_only (require_normal self clt features).
Proof.
  induction features as [| feature rest IH]; cbn [require_normal]; [checks |].
  apply checks_only_bind; [checks | intros normal].
  apply checks_only_bind; [checks | intros _; exact IH].
Qed.

Lemma checks_only_warn_unequal_length (n : Z) (features : list sample) :
  checks_only (warn_unequal_length n features).
Proof. rewrite warn_unequal_length_run. checks. Qed.

Lemma validates_first_bartlett (features : list sample) :
  validates_first (hasEqualVariance self features "bartlett").
Proof.
  unfold hasEqualVariance. cbn [String.eqb Ascii.eqb Bool.eqb].
  apply validates_first_bind_never; [| intros; harmless].
  apply validates_first_bind_checks; [apply checks_only_any_not_normal |].
  intros not_normal. validates.
Qed.

Lemma validates_first_perform (op : operation) :
  is_chiSquare op = false -> validates_first (perform self op).
Proof.
  destruct op; cbn [is_chiSquare perform]; intros Hop; try discriminate.
  - unfold OneSampleTtest. validates.
  - unfold twoSampleTtest, orM, notM. validates.
  - unfold pairedTtest, orM, notM. validates.
  - unfold ANOVA. destruct features as [| feature0 rest]; [validates |].
    apply validates_first_bind_checks;
      [apply checks_only_warn_unequal_length | intros _].
    unfold ANOVA_checks_and_test.
    apply validates_first_bind_checks;
      [apply checks_only_require_normal | intros _].
    apply validates_first_bind_never;
      [apply validates_first_bartlett | intros; harmless].
  - unfold mannWhitneyUtest, andM. validates.
  - unfold wilcoxonSignedRanktest, andM. validates.
  - unfold kruskalWallis. validates.
  - unfold fisherExacttest. validates.
  - unfold pearsonCorrelation, orM, notM. validates.
  - unfold spearmanCorrelation. validates.
Qed.

End ValidatesFirst.

(** C4, as stated, fails on [chiSquare]: on a 2x2 table with small expected
    frequencies the validation error is raised after
    [stats.chi2_contingency] has computed the statistic. *)
Lemma chiSquare_validates_after_statistic :
  perform (lib := Double.scipy) Double.engine (Op_chiSquare Double.rows6 Double.cols6)
  = ([Called Crosstab; Called Chi2_contingency], Raise (ValueError msg_small_expected))
  /\ ~ validates_first
        (perform (lib := Double.scipy) Double.engine
           (Op_chiSquare Double.rows6 Double.cols6)).
Proof.
  split; [reflexivity |].
  intros H. specialize (H msg_small_expected eq_refl).
  inversion H as [| ev rest _ Hrest]; subst.
  inversion Hrest as [| ev' rest' Hchi _]; subst.
  discriminate Hchi.
Qed.

(** C4, amended.  In every test operation other than [chiSquare], a
    validation error is raised before any test statistic is computed: the log
    then holds nothing but normality tests, the cross-tabulation and
    warnings.  In [chiSquare] the only validation error is the one about
    small expected frequencies, and it is raised after [pd.crosstab] and
    [stats.chi2_contingency] have run, since the frequencies it inspects are
    part of what the latter returns. *)
Theorem validation_errors_and_statistics (lib : SciPy) (self : TestHypothesis) :
  (forall op : operation,
      is_chiSquare op = false -> validates_first (perform self op))
  /\ (forall feature1 feature2 : labels,
        raises_ValueError (chiSquare self feature1 feature2) ->
        chiSquare self feature1 feature2
        = ([Called Crosstab; Called Chi2_contingency],
           Raise (ValueError msg_small_expected))).
Proof.
  split.
  - apply validates_first_perform.
  - intros feature1 feature2 [msg Hraise].
    destruct (crosstab feature1 feature2) as [ct | m] eqn:Hct.
    + destruct (chi2_contingency ct) as [[[[chi2 p] dof] expected] | m] eqn:Hchi.
      * rewrite (chiSquare_run self _ _ Hct Hchi) in Hraise |- *.
        destruct (too_many_small expected); [reflexivity | discriminate].
      * rewrite (chiSquare_chi2_fails self _ _ Hct Hchi) in Hraise. discriminate.
    + rewrite (chiSquare_crosstab_fails self _ _ Hct) in Hraise. discriminate.
Qed.

Lemma validation_errors_and_statistics_witness :
  is_chiSquare (Op_pearsonCorrelation Double.skewed3 Double.normal3) = false
  /\ validates_first
       (perform (lib := Double.scipy) Double.engine
          (Op_pearsonCorrelation Double.skewed3 Double.normal3))
  /\ perform (lib := Double.scipy) Double.engine
       (Op_pearsonCorrelation Double.skewed3 Double.normal3)
     = ([Called Shapiro], Raise (ValueError "Samples are not normally distributed.")).
Proof.
  split; [reflexivity |]. split; [| reflexivity].
  exact (proj1 (validation_errors_and_statistics Double.scipy Double.engine)
           (Op_pearsonCorrelation Double.skewed3 Double.normal3) eq_refl).
Defined.

(** ** wilcoxonSignedRanktest *)

Section Wilcoxon.

Context {lib : SciPy}.
Variable self : TestHypothesis.

Lemma wilcoxonSignedRanktest_unequal_length (feature1 feature2 : sample) :
  len feature1 <> len feature2 ->
  wilcoxonSignedRanktest self feature1 feature2
  = ([], Raise (ValueError msg_sizes_different)).
Proof.
  intros Hlen. unfold wilcoxonSignedRanktest.
  apply Z.eqb_neq in Hlen. rewrite Hlen. reflexivity.
Qed.

(** On two identical samples the length check passes, the normality warning
    does not interfere, and the outcome is whatever [stats.wilcoxon] yields
    for them, passed through [checkSignificance]. *)
Lemma wilcoxonSignedRanktest_identical (feature : sample) :
  returns_normally (isNormal self feature) ->
  outcome (wilcoxonSignedRanktest self feature feature)
  = match wilcoxon feature feature with
    | Returns (_, p_value) =>
        Ok (PrimFloat.ltb p_value (significance_level self), p_value)
    | Fails msg => Raise (LibraryError Wilcoxon msg)
    end.
Proof.
  intros [normal Hnormal]. unfold wilcoxonSignedRanktest, andM.
  rewrite Z.eqb_refl. cbn [negb]. rewrite bind_ret.
  rewrite isNormal_run in Hnormal |- *. cbn [outcome snd] in Hnormal.
  destruct (normality_answer feature) as [[stat p] | msg]; [| discriminate].
  unfold call, checkSignificance.
  destruct (gtb p (significance_level self));
    destruct (wilcoxon feature feature) as [[w q] | msg];
    simpl; try destruct (PrimFloat.ltb q (significance_level self)); reflexivity.
Qed.

End Wilcoxon.

(** * Further properties of the class *)

(** ** Comparisons at the boundary *)

Lemma SFltb_irrefl (x : spec_float) : SFltb x x = false.
Proof.
  unfold SFltb. destruct x as [s | s | | s m e]; simpl; try reflexivity.
  - destruct s; reflexivity.
  - destruct s; rewrite Z.compare_refl, Pos.compare_cont_refl; reflexivity.
Qed.

Lemma ltb_irrefl (x : float) : PrimFloat.ltb x x = false.
Proof. rewrite ltb_spec. apply SFltb_irrefl. Qed.

Lemma ltb_nan_l (x : float) : PrimFloat.ltb nan x = false.
Proof. rewrite ltb_spec. reflexivity. Qed.

Lemma ltb_nan_r (x : float) : PrimFloat.ltb x nan = false.
Proof.
  rewrite ltb_spec. unfold SFltb. change (Prim2SF nan) with S754_nan.
  destruct (Prim2SF x) as [s | s | | s m e]; try destruct s; reflexivity.
Qed.

(** X1.  Both comparisons with the significance level are strict: a test
    whose p-value equals the level is not rejected, a sample whose normality
    p-value equals the level is not normal, and variances whose test p-value
    equals the level are not equal. *)
Theorem significance_level_is_strict (lib : SciPy) (self : TestHypothesis) :
  checkSignificance self (significance_level self)
  = ([Stdout msg_not_rejected], Ok (false, significance_level self))
  /\ (forall (feature : sample) (stat : float),
        normality_answer feature = Returns (stat, significance_level self) ->
        outcome (isNormal self feature) = Ok false)
  /\ (forall (features : list sample) (stat : float),
        levene features = Returns (stat, significance_level self) ->
        outcome (hasEqualVariance self features "levene") = Ok false).
Proof.
  split; [| split].
  - rewrite checkSignificance_run, ltb_irrefl. reflexivity.
  - intros feature stat H. rewrite isNormal_run, H. cbn [outcome snd].
    unfold gtb. rewrite ltb_irrefl. reflexivity.
  - intros features stat H. rewrite hasEqualVariance_levene_run, H.
    cbn [outcome snd]. unfold gtb. rewrite ltb_irrefl. reflexivity.
Qed.

(** X2.  A NaN p-value, which the library reports for degenerate data,
    falls on the negative side of every comparison whatever the
    significance level is: the hypothesis is not rejected, the sample is not
    normal, the variances are not equal.  And with a NaN significance level
    nothing is ever rejected. *)
Theorem nan_p_value (lib : SciPy) (self : TestHypothesis) :
  checkSignificance self nan = ([Stdout msg_not_rejected], Ok (false, nan))
  /\ (forall (feature : sample) (stat : float),
        normality_answer feature = Returns (stat, nan) ->
        outcome (isNormal self feature) = Ok false)
  /\ (forall (features : list sample) (stat : float),
        levene features = Returns (stat, nan) ->
        outcome (hasEqualVariance self features "levene") = Ok false)
  /\ (forall p_value : float,
        outcome (checkSignificance {| significance_level := nan |} p_value)
        = Ok (false, p_value)).
Proof.
  split; [| split; [| split]].
  - rewrite checkSignificance_run, ltb_nan_l. reflexivity.
  - intros feature stat H. rewrite isNormal_run, H. cbn [outcome snd].
    unfold gtb. rewrite ltb_nan_r. reflexivity.
  - intros features stat H. rewrite hasEqualVariance_levene_run, H.
    cbn [outcome snd]. unfold gtb. rewrite ltb_nan_r. reflexivity.
  - intros p_value. rewrite checkSignificance_run. cbn [significance_level].
    rewrite ltb_nan_r. reflexivity.
Qed.

(** ** hasEqualVariance with an unknown method *)

(** X3.  Only the exact string "bartlett" selects Bartlett's test: with any
    other method name, misspelt ones included, [hasEqualVariance] runs
    Levene's test and no normality test. *)
Theorem hasEqualVariance_other_method
    (lib : SciPy) (self : TestHypothesis) (features : list sample) (method : string) :
  method <> "bartlett"%string ->
  hasEqualVariance self features method
  = ([Called Levene],
     match levene features with
     | Returns (_, p_value) => Ok (gtb p_value (significance_level self))
     | Fails msg => Raise (LibraryError Levene msg)
     end).
Proof.
  intros Hmethod. unfold hasEqualVariance.
  apply String.eqb_neq in Hmethod. rewrite Hmethod.
  destruct (levene features) as [[stat p] | msg]; reflexivity.
Qed.

Lemma hasEqualVariance_other_method_witness :
  hasEqualVariance (lib := Double.scipy) Double.engine
    [Double.normal3; Double.skewed3] "Bartlett"
  = ([Called Levene], Ok true).
Proof.
  refine (eq_trans
            (hasEqualVariance_other_method Double.scipy Double.engine
               [Double.normal3; Double.skewed3] (method := "Bartlett") _) _).
  - discriminate.
  - reflexivity.
Defined.

(** ** The two-sample and paired t-tests *)

Section TTests.

Context {lib : SciPy}.
Variable self : TestHypothesis.

(** The last two steps of every operation. *)
Lemma call_then_check (fn : libfn) (r : answer (float * float)) :
  outcome ('(_, p_value) <- call fn r ;; checkSignificance self p_value)
  = match r with
    | Returns (_, p_value) =>
        Ok (PrimFloat.ltb p_value (significance_level self), p_value)
    | Fails msg => Raise (LibraryError fn msg)
    end.
Proof.
  unfold call. destruct r as [[stat p] | msg]; [| reflexivity].
  rewrite (outcome_bind_Ok ([Called fn], Ok (stat, p)) _ (a := (stat, p)) eq_refl).
  rewrite checkSignificance_run. reflexivity.
Qed.

Lemma either_not_normal_outcome (feature1 feature2 : sample) (normal1 normal2 : bool) :
  outcome (isNormal self feature1) = Ok normal1 ->
  (normal1 = true -> outcome (isNormal self feature2) = Ok normal2) ->
  outcome (orM (notM (isNormal self feature1)) (notM (isNormal self feature2)))
  = Ok (negb (normal1 && (if normal1 then normal2 else true))).
Proof.
  intros H1 H2. rewrite either_not_normal_run, H1.
  destruct normal1; [| reflexivity].
  cbn [outcome snd]. rewrite (H2 eq_refl). reflexivity.
Qed.

Lemma pairedTtest_after_gate (feature1 feature2 : sample) (clt not_normal : bool) :
  outcome (orM (notM (isNormal self feature1)) (notM (isNormal self feature2)))
  = Ok not_normal ->
  outcome (pairedTtest self feature1 feature2 clt)
  = if not_normal
    then if negb clt
         then Raise (ValueError "Samples are not Normally distributed")
         else if len feature1 <=? 30
              then Raise (ValueError "Unable to apply CLT for feature size < 30")
              else match ttest_rel feature1 feature2 with
                   | Returns (_, p_value) =>
                       Ok (PrimFloat.ltb p_value (significance_level self), p_value)
                   | Fails msg => Raise (LibraryError Ttest_rel msg)
                   end
    else match ttest_rel feature1 feature2 with
         | Returns (_, p_value) =>
             Ok (PrimFloat.ltb p_value (significance_level self), p_value)
         | Fails msg => Raise (LibraryError Ttest_rel msg)
         end.
Proof.
  intros Hgate. unfold pairedTtest. rewrite (outcome_bind_Ok _ _ Hgate).
  destruct not_normal; [destruct (negb clt); [reflexivity |];
                        destruct (len feature1 <=? 30); [reflexivity |] |];
    rewrite bind_ret; apply call_then_check.
Qed.

Lemma pairedTtest_gate_raises (feature1 feature2 : sample) (clt : bool) (e : exn) :
  outcome (orM (notM (isNormal self feature1)) (notM (isNormal self feature2)))
  = Raise e ->
  outcome (pairedTtest self feature1 feature2 clt) = Raise e
  /\ exists fn msg, e = LibraryError fn msg.
Proof.
  intros Hgate. split.
  - unfold pairedTtest. apply (outcome_bind_Raise _ _ Hgate).
  - rewrite either_not_normal_run in Hgate.
    destruct (outcome (isNormal self feature1)) as [[|] | e1] eqn:E1;
      cbn [outcome snd] in Hgate.
    + destruct (outcome (isNormal self feature2)) as [n2 | e2] eqn:E2;
        [discriminate |].
      injection Hgate as <-. destruct (isNormal_raises _ _ E2) as [msg ->]. eauto.
    + discriminate.
    + injection Hgate as <-. destruct (isNormal_raises _ _ E1) as [msg ->]. eauto.
Qed.

Lemma twoSampleTtest_after_gate (feature1 feature2 : sample) (clt not_normal : bool) :
  len feature1 = len feature2 ->
  outcome (orM (notM (isNormal self feature1)) (notM (isNormal self feature2)))
  = Ok not_normal ->
  not_normal = false \/ (clt = true /\ 30 < len feature1) ->
  outcome (twoSampleTtest self feature1 feature2 clt)
  = match levene [feature1; feature2] with
    | Returns (_, variance_p) =>
        match ttest_ind feature1 feature2 (gtb variance_p (significance_level self)) with
        | Returns (_, p_value) =>
            Ok (PrimFloat.ltb p_value (significance_level self), p_value)
        | Fails msg => Raise (LibraryError Ttest_ind msg)
        end
    | Fails msg => Raise (LibraryError Levene msg)
    end.
Proof.
  intros Hlen Hgate Hpass. unfold twoSampleTtest.
  apply Z.eqb_eq in Hlen. rewrite Hlen. cbn [negb]. rewrite bind_ret.
  rewrite (outcome_bind_Ok _ _ Hgate).
  assert (Hrest :
            forall m : M unit, m = ret tt ->
            outcome (m ;;
                     equal_var <- hasEqualVariance self [feature1; feature2] "levene" ;;
                     '(_, p_value) <- call Ttest_ind (ttest_ind feature1 feature2 equal_var) ;;
                     checkSignificance self p_value)
            = match levene [feature1; feature2] with
              | Returns (_, variance_p) =>
                  match ttest_ind feature1 feature2
                          (gtb variance_p (significance_level self)) with
                  | Returns (_, p_value) =>
                      Ok (PrimFloat.ltb p_value (significance_level self), p_value)
                  | Fails msg => Raise (LibraryError Ttest_ind msg)
                  end
              | Fails msg => Raise (LibraryError Levene msg)
              end).
  { intros m ->. rewrite bind_ret, hasEqualVariance_levene_run.
    destruct (levene [feature1; feature2]) as [[stat pv] | msg]; [| reflexivity].
    rewrite (outcome_bind_Ok ([Called Levene], Ok (gtb pv (significance_level self)))
               _ (a := gtb pv (significance_level self)) eq_refl).
    apply call_then_check. }
  apply Hrest.
  destruct Hpass as [-> | [-> Hlarge]]; [reflexivity |].
  apply Z.leb_gt in Hlarge. rewrite Z.eqb_eq in Hlen. rewrite Hlarge.
  destruct not_normal; reflexivity.
Qed.

End TTests.

(** X4.  Once the length check and the normality gate have let the samples
    through (both normal, or [clt] set and more than 30 elements),
    [twoSampleTtest] runs Levene's test on the two samples and hands
    [stats.ttest_ind] the flag [equal_var = (levene p-value > alpha)]; the
    result is the verdict on the t-test's p-value.  If Levene's test raises,
    the t-test is not run. *)
Theorem twoSampleTtest_variance_flag
    (lib : SciPy) (self : TestHypothesis) (feature1 feature2 : sample) (clt : bool)
    (normal1 normal2 : bool) :
  len feature1 = len feature2 ->
  outcome (isNormal self feature1) = Ok normal1 ->
  outcome (isNormal self feature2) = Ok normal2 ->
  normal1 && normal2 = true \/ (clt = true /\ 30 < len feature1) ->
  outcome (twoSampleTtest self feature1 feature2 clt)
  = match levene [feature1; feature2] with
    | Returns (_, variance_p) =>
        match ttest_ind feature1 feature2 (gtb variance_p (significance_level self)) with
        | Returns (_, p_value) =>
            Ok (PrimFloat.ltb p_value (significance_level self), p_value)
        | Fails msg => Raise (LibraryError Ttest_ind msg)
        end
    | Fails msg => Raise (LibraryError Levene msg)
    end.
Proof.
  intros Hlen H1 H2 Hpass.
  apply (twoSampleTtest_after_gate self _ _ (clt := clt) Hlen
           (either_not_normal_outcome self _ _ H1 (fun _ => H2))).
  destruct Hpass as [Hboth | Hclt]; [left | right; exact Hclt].
  apply andb_true_iff in Hboth. destruct Hboth as [-> ->]. reflexivity.
Qed.

Lemma twoSampleTtest_variance_flag_witness :
  outcome (twoSampleTtest (lib := Double.scipy) Double.engine
             Double.skewed31 Samples.normal31 true)
  = Ok (false, 0.5%float).
Proof.
  refine (eq_trans
            (@twoSampleTtest_variance_flag Double.scipy Double.engine
               Double.skewed31 Samples.normal31 true false true _ _ _ _) _).
  - reflexivity.
  - reflexivity.
  - reflexivity.
  - right. split; [reflexivity | vm_compute; reflexivity].
  - reflexivity.
Defined.

(** X5.  [pairedTtest] has no check on the lengths: the only validation
    errors it raises are the two normality ones, and two normal samples go to
    [stats.ttest_rel] whatever their lengths are. *)
Theorem pairedTtest_no_length_check
    (lib : SciPy) (self : TestHypothesis) (feature1 feature2 : sample) (clt : bool) :
  (forall msg,
      outcome (pairedTtest self feature1 feature2 clt) = Raise (ValueError msg) ->
      msg = "Samples are not Normally distributed"%string
      \/ msg = "Unable to apply CLT for feature size < 30"%string)
  /\ (outcome (isNormal self feature1) = Ok true ->
      outcome (isNormal self feature2) = Ok true ->
      outcome (pairedTtest self feature1 feature2 clt)
      = match ttest_rel feature1 feature2 with
        | Returns (_, p_value) =>
            Ok (PrimFloat.ltb p_value (significance_level self), p_value)
        | Fails msg => Raise (LibraryError Ttest_rel msg)
        end).
Proof.
  split.
  - intros msg Hraise.
    destruct (outcome (orM (notM (isNormal self feature1)) (notM (isNormal self feature2))))
      as [not_normal | e] eqn:Hgate.
    + rewrite (pairedTtest_after_gate self _ _ clt Hgate) in Hraise.
      destruct not_normal;
        [destruct (negb clt); [injection Hraise as <-; left; reflexivity |];
         destruct (len feature1 <=? 30); [injection Hraise as <-; right; reflexivity |] |];
        destruct (ttest_rel feature1 feature2) as [[stat p] | m]; discriminate.
    + destruct (pairedTtest_gate_raises self _ _ clt Hgate) as [Hout (fn & m & ->)].
      rewrite Hout in Hraise. discriminate.
  - intros H1 H2.
    rewrite (pairedTtest_after_gate self _ _ clt
               (either_not_normal_outcome self _ _ H1 (fun _ => H2))).
    reflexivity.
Qed.

Lemma pairedTtest_no_length_check_witness :
  len Double.normal3 <> len Samples.normal4
  /\ outcome (pairedTtest (lib := Double.scipy) Double.engine
                Double.normal3 Samples.normal4 false)
     = Ok (false, 0.5%float).
Proof.
  split; [vm_compute; discriminate |].
  exact (proj2 (@pairedTtest_no_length_check Double.scipy Double.engine
                  Double.normal3 Samples.normal4 false) eq_refl eq_refl).
Defined.

(** X6.  In [pairedTtest] under [clt], when a sample is not normal the size
    that decides is the first sample's alone: the call raises when
    [feature1] has at most 30 elements and goes on to [stats.ttest_rel] when
    it has more, whichever sample failed and however short [feature2] is. *)
Theorem pairedTtest_clt_first_sample_size
    (lib : SciPy) (self : TestHypothesis) (feature1 feature2 : sample) :
  outcome (isNormal self feature1) = Ok false
  \/ (outcome (isNormal self feature1) = Ok true
      /\ outcome (isNormal self feature2) = Ok false) ->
  (len feature1 <= 30 ->
   outcome (pairedTtest self feature1 feature2 true)
   = Raise (ValueError "Unable to apply CLT for feature size < 30"))
  /\ (30 < len feature1 ->
      outcome (pairedTtest self feature1 feature2 true)
      = match ttest_rel feature1 feature2 with
        | Returns (_, p_value) =>
            Ok (PrimFloat.ltb p_value (significance_level self), p_value)
        | Fails msg => Raise (LibraryError Ttest_rel msg)
        end).
Proof.
  intros Hnot.
  assert (Hgate : outcome (orM (notM (isNormal self feature1))
                               (notM (isNormal self feature2))) = Ok true).
  { rewrite either_not_normal_run.
    destruct Hnot as [-> | [-> ->]]; reflexivity. }
  rewrite (pairedTtest_after_gate self _ _ true Hgate). cbn [negb].
  split; intros Hlen.
  - apply Z.leb_le in Hlen. rewrite Hlen. reflexivity.
  - apply Z.leb_gt in Hlen. rewrite Hlen. reflexivity.
Qed.

Lemma pairedTtest_clt_first_sample_size_witness :
  len Double.skewed3 <= 30
  /\ outcome (pairedTtest (lib := Double.scipy) Double.engine
                Samples.normal31 Double.skewed3 true)
     = Ok (false, 0.5%float).
Proof.
  split; [vm_compute; discriminate |].
  apply (proj2 (@pairedTtest_clt_first_sample_size Double.scipy Double.engine
                  Samples.normal31 Double.skewed3
                  (or_intror (conj eq_refl eq_refl)))).
  vm_compute. reflexivity.
Defined.

(** ** What a log leaves out *)

Section Silent.

Context {lib : SciPy}.
Variable self : TestHypothesis.
Variable Q : event -> bool.

Lemma silent_ret {A : Type} (a : A) : silent_on Q (ret a).
Proof. constructor. Qed.

Lemma silent_raise {A : Type} (e : exn) : silent_on Q (raise (A := A) e).
Proof. constructor. Qed.

Lemma silent_bind {A B : Type} (m : M A) (k : A -> M B) :
  silent_on Q m -> (forall a, silent_on Q (k a)) -> silent_on Q (bind m k).
Proof.
  intros Hm Hk. destruct m as [t [a | e]].
  - unfold silent_on. rewrite (bind_Ok _ eq_refl).
    apply Forall_app. split; [exact Hm | apply Hk].
  - exact Hm.
Qed.

Lemma silent_call {A : Type} (fn : libfn) (r : answer A) :
  Q (Called fn) = false -> silent_on Q (call fn r).
Proof. intros H. repeat constructor. exact H. Qed.

Lemma silent_warn (msg : string) :
  Q (UserWarning msg) = false -> silent_on Q (warn msg).
Proof. intros H. repeat constructor. exact H. Qed.

Hypothesis calls_pass : forall fn, Q (Called fn) = false.

Lemma silent_isNormal (feature : sample) : silent_on Q (isNormal self feature).
Proof.
  unfold silent_on. rewrite isNormal_trace. repeat constructor. apply calls_pass.
Qed.

Lemma silent_any_not_normal (features : list sample) :
  silent_on Q (any_not_normal self features).
Proof.
  induction features as [| f rest IH]; [constructor |].
  cbn [any_not_normal]. apply silent_bind; [apply silent_isNormal |].
  intros normal. destruct (negb normal); [apply silent_ret | exact IH].
Qed.

Lemma silent_hasEqualVariance (features : list sample) (method : string) :
  silent_on Q (hasEqualVariance self features method).
Proof.
  unfold hasEqualVariance.
  apply silent_bind; [| intros; apply silent_ret].
  destruct (String.eqb method "bartlett").
  - apply silent_bind; [apply silent_any_not_normal |].
    intros not_normal. destruct not_normal; [apply silent_raise |].
    apply silent_bind; [apply silent_call, calls_pass |].
    intros [stat p]. apply silent_ret.
  - apply silent_bind; [apply silent_call, calls_pass |].
    intros [stat p]. apply silent_ret.
Qed.

Lemma silent_require_normal (clt : bool) (features : list sample) :
  silent_on Q (require_normal self clt features).
Proof.
  induction features as [| feature rest IH]; [constructor |].
  cbn [require_normal]. apply silent_bind; [apply silent_isNormal |].
  intros normal. apply silent_bind; [| intros _; exact IH].
  destruct (negb normal); [| apply silent_ret].
  destruct (negb clt); [apply silent_raise |].
  destruct (len feature <=? 30); [apply silent_raise | apply silent_ret].
Qed.

End Silent.

(** ** The verdict line *)

Section Reports.

Context {lib : SciPy}.
Variable self : TestHypothesis.

Lemma reports_check (p_value : float) : reports_verdict (checkSignificance self p_value).
Proof.
  unfold reports_verdict. rewrite checkSignificance_run. cbn [outcome trace fst snd].
  exists []. split; [| constructor].
  destruct (PrimFloat.ltb p_value (significance_level self)); reflexivity.
Qed.

Lemma reports_bind {A : Type} (m : M A) (k : A -> M TestResult) :
  prints_nothing m -> (forall a, reports_verdict (k a)) -> reports_verdict (bind m k).
Proof.
  intros Hm Hk. destruct m as [t [a | e]]; [| exact Hm].
  unfold reports_verdict. rewrite (bind_Ok _ eq_refl). cbn [outcome trace fst snd].
  specialize (Hk a). unfold reports_verdict in Hk.
  destruct (outcome (k a)) as [[rejected p] | e].
  - destruct Hk as [t' [Ht' Hquiet]]. exists (t ++ t'). split.
    + rewrite Ht'. apply app_assoc.
    + apply Forall_app. split; [exact Hm | exact Hquiet].
  - apply Forall_app. split; [exact Hm | exact Hk].
Qed.

Lemma reports_silent (m : M TestResult) :
  prints_nothing m -> (forall r, outcome m <> Ok r) -> reports_verdict m.
Proof.
  intros Hm Hnever. unfold reports_verdict.
  destruct (outcome m) as [[rejected p] | e]; [| exact Hm].
  destruct (Hnever _ eq_refl).
Qed.

Ltac quiet :=
  solve
    [ apply silent_ret
    | apply silent_raise
    | apply silent_warn; reflexivity
    | apply silent_call; reflexivity
    | apply silent_isNormal; intros; reflexivity
    | apply silent_hasEqualVariance; intros; reflexivity
    | apply silent_require_normal; intros; reflexivity
    | apply silent_bind; [quiet | intros; quiet]
    | match goal with
      | |- context [if ?c then _ else _] => destruct c; quiet
      end ].

Ltac reports :=
  solve
    [ apply reports_check
    | apply reports_bind; [unfold prints_nothing; quiet | intros; reports]
    | match goal with
      | |- context [match ?x with (_, _) => _ end] => destruct x; reports
      end ].

Lemma prints_nothing_warn_unequal_length (n : Z) (features : list sample) :
  prints_nothing (warn_unequal_length n features).
Proof. rewrite warn_unequal_length_run. unfold prints_nothing. quiet. Qed.

Lemma reports_perform (op : operation) : reports_verdict (perform self op).
Proof.
  destruct op; cbn [perform].
  - unfold OneSampleTtest. reports.
  - unfold twoSampleTtest, orM, notM. reports.
  - unfold pairedTtest, orM, notM. reports.
  - unfold ANOVA. destruct features as [| feature0 rest].
    + apply reports_silent; [constructor | discriminate].
    + apply reports_bind; [apply prints_nothing_warn_unequal_length | intros _].
      unfold ANOVA_checks_and_test. reports.
  - unfold mannWhitneyUtest, andM. reports.
  - unfold wilcoxonSignedRanktest, andM. reports.
  - unfold kruskalWallis. reports.
  - unfold chiSquare. reports.
  - unfold fisherExacttest. reports.
  - unfold pearsonCorrelation, orM, notM. reports.
  - unfold spearmanCorrelation. reports.
Qed.

End Reports.

(** X7.  Every test operation prints its verdict exactly once, as the last
    thing it does, and only when it returns: a run that returns
    [(rejected, p_value)] ends with the line for [rejected] and printed
    nothing before it; a run that raises printed nothing. *)
Theorem every_operation_reports_its_verdict
    (lib : SciPy) (self : TestHypothesis) (op : operation) :
  match outcome (perform self op) with
  | Ok (rejected, _) =>
      exists t,
        trace (perform self op)
        = t ++ [Stdout (if rejected then msg_rejected else msg_not_rejected)]
        /\ Forall (fun ev => is_stdout ev = false) t
  | Raise _ => Forall (fun ev => is_stdout ev = false) (trace (perform self op))
  end.
Proof. exact (reports_perform self op). Qed.

(** ** Operations without a validation of their own *)

Section LibraryErrors.

Context {lib : SciPy}.
Variable self : TestHypothesis.

Lemma library_only_ret {A : Type} (a : A) : raises_only_library_errors (ret a).
Proof. intros e. discriminate. Qed.

Lemma library_only_warn (msg : string) : raises_only_library_errors (warn msg).
Proof. intros e. discriminate. Qed.

Lemma library_only_call {A : Type} (fn : libfn) (r : answer A) :
  raises_only_library_errors (call fn r).
Proof.
  intros e. destruct r as [a | msg]; [discriminate |].
  intros [= <-]. eauto.
Qed.

Lemma library_only_check (p_value : float) :
  raises_only_library_errors (checkSignificance self p_value).
Proof. intros e. rewrite checkSignificance_run. discriminate. Qed.

Lemma library_only_isNormal (feature : sample) :
  raises_only_library_errors (isNormal self feature).
Proof. intros e H. destruct (isNormal_raises _ _ H) as [msg ->]. eauto. Qed.

Lemma library_only_bind {A B : Type} (m : M A) (k : A -> M B) :
  raises_only_library_errors m -> (forall a, raises_only_library_errors (k a)) ->
  raises_only_library_errors (bind m k).
Proof.
  intros Hm Hk e. destruct m as [t [a | e']].
  - rewrite (bind_Ok _ eq_refl). apply Hk.
  - cbn [bind outcome snd]. intros [= <-]. exact (Hm e' eq_refl).
Qed.

Ltac library_only :=
  solve
    [ apply library_only_ret
    | apply library_only_warn
    | apply library_only_call
    | apply library_only_check
    | apply library_only_isNormal
    | apply library_only_bind; [library_only | intros; library_only]
    | match goal with
      | |- context [if ?c then _ else _] => destruct c; library_only
      | |- context [match ?x with (_, _) => _ end] => destruct x; library_only
      end ].

Lemma library_only_mannWhitneyUtest (feature1 feature2 : sample) :
  raises_only_library_errors (mannWhitneyUtest self feature1 feature2).
Proof. unfold mannWhitneyUtest, andM. library_only. Qed.

Lemma library_only_kruskalWallis (features : list sample) :
  raises_only_library_errors (kruskalWallis self features).
Proof. unfold kruskalWallis. library_only. Qed.

Lemma library_only_fisherExacttest (feature1 feature2 : labels) :
  raises_only_library_errors (fisherExacttest self feature1 feature2).
Proof. unfold fisherExacttest. library_only. Qed.

(** What [wilcoxonSignedRanktest] and [spearmanCorrelation] run after their
    length check. *)
Lemma library_only_wilcoxon_rest (feature1 feature2 : sample) :
  raises_only_library_errors
    (both_normal <- andM (isNormal self feature1) (isNormal self feature2) ;;
     (if both_normal
      then warn "Features are normal, Consider using Paired sample t-test instead"
      else ret tt) ;;
     '(_, p_value) <- call Wilcoxon (wilcoxon feature1 feature2) ;;
     checkSignificance self p_value).
Proof. unfold andM. library_only. Qed.

End LibraryErrors.

(** X8.  [mannWhitneyUtest], [kruskalWallis] and [fisherExacttest] validate
    nothing: whatever the inputs, when one of them raises, the exception
    comes from a library routine, never from the class. *)
Theorem tests_without_validation (lib : SciPy) (self : TestHypothesis) :
  (forall (feature1 feature2 : sample) (e : exn),
      outcome (mannWhitneyUtest self feature1 feature2) = Raise e ->
      exists fn msg, e = LibraryError fn msg)
  /\ (forall (features : list sample) (e : exn),
        outcome (kruskalWallis self features) = Raise e ->
        exists fn msg, e = LibraryError fn msg)
  /\ (forall (feature1 feature2 : labels) (e : exn),
        outcome (fisherExacttest self feature1 feature2) = Raise e ->
        exists fn msg, e = LibraryError fn msg).
Proof.
  split; [| split].
  - intros f1 f2. apply library_only_mannWhitneyUtest.
  - intros fs. apply library_only_kruskalWallis.
  - intros f1 f2. apply library_only_fisherExacttest.
Qed.

(** X9.  [spearmanCorrelation] raises a validation error exactly when the
    lengths differ, and then calls nothing.  With equal lengths its only
    library call is [stats.spearmanr] (no variance or normality check, unlike
    [pearsonCorrelation]) and its outcome is the verdict on that p-value. *)
Theorem spearmanCorrelation_length_only
    (lib : SciPy) (self : TestHypothesis) (feature1 feature2 : sample) :
  (raises_ValueError (spearmanCorrelation self feature1 feature2)
   <-> len feature1 <> len feature2)
  /\ (len feature1 <> len feature2 ->
      spearmanCorrelation self feature1 feature2
      = ([], Raise (ValueError msg_lengths_not_equal)))
  /\ (len feature1 = len feature2 ->
      spearmanCorrelation self feature1 feature2
      = match spearmanr feature1 feature2 with
        | Returns (_, p_value) =>
            ([Called Spearmanr;
              Stdout (if PrimFloat.ltb p_value (significance_level self)
                      then msg_rejected else msg_not_rejected)],
             Ok (PrimFloat.ltb p_value (significance_level self), p_value))
        | Fails msg => ([Called Spearmanr], Raise (LibraryError Spearmanr msg))
        end).
Proof.
  assert (Hne : len feature1 <> len feature2 ->
                spearmanCorrelation self feature1 feature2
                = ([], Raise (ValueError msg_lengths_not_equal))).
  { intros H. unfold spearmanCorrelation. apply Z.eqb_neq in H. rewrite H. reflexivity. }
  assert (Heq : len feature1 = len feature2 ->
                spearmanCorrelation self feature1 feature2
                = match spearmanr feature1 feature2 with
                  | Returns (_, p_value) =>
                      ([Called Spearmanr;
                        Stdout (if PrimFloat.ltb p_value (significance_level self)
                                then msg_rejected else msg_not_rejected)],
                       Ok (PrimFloat.ltb p_value (significance_level self), p_value))
                  | Fails msg => ([Called Spearmanr], Raise (LibraryError Spearmanr msg))
                  end).
  { intros H. unfold spearmanCorrelation. apply Z.eqb_eq in H. rewrite H.
    cbn [negb]. rewrite bind_ret. unfold call.
    destruct (spearmanr feature1 feature2) as [[stat p] | msg]; [| reflexivity].
    rewrite (bind_Ok _ eq_refl), checkSignificance_run. reflexivity. }
  split; [| split; assumption].
  split.
  - intros [msg Hraise] Hlen. rewrite (Heq Hlen) in Hraise.
    destruct (spearmanr feature1 feature2) as [[stat p] | m]; discriminate.
  - intros Hlen. rewrite (Hne Hlen). eexists. reflexivity.
Qed.

(** X10.  [wilcoxonSignedRanktest] raises a validation error exactly when
    the lengths differ, and then calls nothing; with equal lengths any
    exception it raises comes from a library routine. *)
Theorem wilcoxonSignedRanktest_length_only
    (lib : SciPy) (self : TestHypothesis) (feature1 feature2 : sample) :
  (raises_ValueError (wilcoxonSignedRanktest self feature1 feature2)
   <-> len feature1 <> len feature2)
  /\ (len feature1 <> len feature2 ->
      wilcoxonSignedRanktest self feature1 feature2
      = ([], Raise (ValueError msg_sizes_different)))
  /\ (len feature1 = len feature2 ->
      forall e, outcome (wilcoxonSignedRanktest self feature1 feature2) = Raise e ->
                exists fn msg, e = LibraryError fn msg).
Proof.
  assert (Heq : len feature1 = len feature2 ->
                forall e, outcome (wilcoxonSignedRanktest self feature1 feature2) = Raise e ->
                          exists fn msg, e = LibraryError fn msg).
  { intros H. unfold wilcoxonSignedRanktest. apply Z.eqb_eq in H. rewrite H.
    cbn [negb]. rewrite bind_ret. apply library_only_wilcoxon_rest. }
  split; [| split].
  - split.
    + intros [msg Hraise] Hlen.
      destruct (Heq Hlen _ Hraise) as (fn & m & H). discriminate.
    + intros Hlen. rewrite (wilcoxonSignedRanktest_unequal_length self _ _ Hlen).
      eexists. reflexivity.
  - apply wilcoxonSignedRanktest_unequal_length.
  - exact Heq.
Qed.

(** ** More on ANOVA *)

Section AnovaMore.

Context {lib : SciPy}.
Variable self : TestHypothesis.

Lemma any_not_normal_all_normal (features : list sample) :
  (forall g, In g features -> outcome (isNormal self g) = Ok true) ->
  outcome (any_not_normal self features) = Ok false.
Proof.
  induction features as [| f rest IH]; intros Hall; [reflexivity |].
  rewrite any_not_normal_cons, (Hall f (or_introl eq_refl)).
  apply IH. intros g Hg. apply Hall. right. exact Hg.
Qed.

Lemma warns_nothing_ANOVA_checks (features : list sample) (clt : bool) :
  warns_nothing (ANOVA_checks_and_test self features clt).
Proof.
  unfold ANOVA_checks_and_test, warns_nothing.
  apply silent_bind; [apply silent_require_normal; reflexivity | intros _].
  apply silent_bind; [apply silent_hasEqualVariance; reflexivity | intros _].
  apply silent_bind; [apply silent_call; reflexivity | intros [stat p]].
  unfold silent_on. rewrite checkSignificance_run. repeat constructor.
Qed.

End AnovaMore.

(** X11.  The variance check of [ANOVA] only has to return: its verdict
    [equal_var] is not used.  On samples that are all normal the outcome is
    the verdict on the F-test's p-value whatever p-value Bartlett's test
    reports, so unequal variances neither stop the test nor change it. *)
Theorem ANOVA_ignores_variance_verdict
    (lib : SciPy) (self : TestHypothesis) (features : list sample) (clt : bool) :
  features <> [] ->
  (forall g, In g features -> outcome (isNormal self g) = Ok true) ->
  outcome (ANOVA self features clt)
  = match bartlett features with
    | Returns _ =>
        match f_oneway features with
        | Returns (_, p_value) =>
            Ok (PrimFloat.ltb p_value (significance_level self), p_value)
        | Fails msg => Raise (LibraryError F_oneway msg)
        end
    | Fails msg => Raise (LibraryError Bartlett msg)
    end.
Proof.
  intros Hne Hall.
  destruct features as [| feature0 rest]; [destruct (Hne eq_refl) |].
  rewrite ANOVA_outcome.
  assert (Hloop : outcome (require_normal self clt (feature0 :: rest)) = Ok tt).
  { apply require_normal_passes. intros g Hg. left. exact (Hall g Hg). }
  rewrite (ANOVA_checks_after_loop self _ _ Hloop).
  rewrite hasEqualVariance_bartlett_run.
  rewrite (any_not_normal_all_normal self _ Hall). cbn [outcome snd].
  destruct (bartlett (feature0 :: rest)) as [[stat p] | msg]; reflexivity.
Qed.

Lemma ANOVA_ignores_variance_verdict_witness :
  outcome (ANOVA (lib := Double.scipy) Double.engine
             [Double.normal3; Samples.normal4] false)
  = Ok (true, 0.01%float).
Proof.
  refine (eq_trans
            (@ANOVA_ignores_variance_verdict Double.scipy Double.engine
               [Double.normal3; Samples.normal4] false _ _) _).
  - discriminate.
  - intros g [<- | [<- | []]]; reflexivity.
  - reflexivity.
Defined.

(** X12.  Called with no sample at all, [ANOVA] fails on [features[0]] with
    an [IndexError] before doing anything.  Otherwise it emits the length
    warning exactly when some sample's length differs from the first
    sample's, and what follows the first loop never warns, so the warning
    appears at most once. *)
Theorem ANOVA_empty_and_warning
    (lib : SciPy) (self : TestHypothesis) (clt : bool) :
  ANOVA self [] clt = ([], Raise (IndexError "tuple index out of range"))
  /\ (forall (feature0 : sample) (rest : list sample),
        In (UserWarning msg_unequal_length) (trace (ANOVA self (feature0 :: rest) clt))
        <-> exists g, In g rest /\ len g <> len feature0)
  /\ (forall features : list sample,
        Forall (fun ev => is_warning ev = false)
               (trace (ANOVA_checks_and_test self features clt))).
Proof.
  split; [reflexivity | split].
  - intros feature0 rest.
    pose proof (warns_nothing_ANOVA_checks self (feature0 :: rest) clt) as Hquiet.
    assert (Hnot : ~ In (UserWarning msg_unequal_length)
                        (trace (ANOVA_checks_and_test self (feature0 :: rest) clt))).
    { intros Hin. unfold warns_nothing, silent_on in Hquiet.
      rewrite Forall_forall in Hquiet. specialize (Hquiet _ Hin). discriminate. }
    rewrite ANOVA_run. cbn [forallb]. rewrite Z.eqb_refl. cbn [andb].
    destruct (forallb (fun feature => len feature =? len feature0) rest) eqn:E.
    + split; [intros Hin; destruct (Hnot Hin) |].
      intros (g & Hg & Hlen). rewrite forallb_forall in E.
      apply E in Hg. apply Z.eqb_eq in Hg. destruct (Hlen Hg).
    + split; [intros _ | intros _; left; reflexivity].
      destruct (existsb (fun feature => negb (len feature =? len feature0)) rest) eqn:Ex.
      * apply existsb_exists in Ex. destruct Ex as (g & Hg & Hlen).
        exists g. split; [exact Hg |].
        apply negb_true_iff in Hlen. apply Z.eqb_neq. exact Hlen.
      * exfalso. assert (Hall : forallb (fun feature => len feature =? len feature0) rest
                              = true).
        { apply forallb_forall. intros g Hg.
          destruct (len g =? len feature0) eqn:Eg; [reflexivity |].
          assert (Hex : existsb (fun feature => negb (len feature =? len feature0)) rest
                        = true).
          { apply existsb_exists. exists g. split; [exact Hg |]. rewrite Eg. reflexivity. }
          congruence. }
        congruence.
  - intros features. exact (warns_nothing_ANOVA_checks self features clt).
Qed.

(** ** mannWhitneyUtest *)

Section MannWhitney.

Context {lib : SciPy}.
Variable self : TestHypothesis.

(** What follows the size check never emits the size warning. *)
Lemma mannWhitney_rest_silent (feature1 feature2 : sample) :
  silent_on is_large_difference_warning
    (both_normal <- andM (isNormal self feature1) (isNormal self feature2) ;;
     (if both_normal
      then warn "Features are normal, Consider using t-test instead"
      else ret tt) ;;
     '(_, p_value) <- call Mannwhitneyu (mannwhitneyu feature1 feature2) ;;
     checkSignificance self p_value).
Proof.
  unfold andM.
  apply silent_bind.
  - apply silent_bind; [apply silent_isNormal; reflexivity |].
    intros normal. destruct normal; [apply silent_isNormal; reflexivity | apply silent_ret].
  - intros both_normal. apply silent_bind.
    + destruct both_normal; [apply silent_warn; reflexivity | apply silent_ret].
    + intros _. apply silent_bind; [apply silent_call; reflexivity |].
      intros [stat p]. unfold silent_on. rewrite checkSignificance_run.
      repeat constructor.
Qed.

Lemma mannWhitney_advisory_check_fails (feature1 feature2 : sample) (msg : string) :
  normality_answer feature1 = Fails msg ->
  mannWhitneyUtest self feature1 feature2
  = ((if large_size_difference (len feature1) (len feature2)
      then [UserWarning msg_large_difference] else [])
     ++ [Called (normality_test feature1)],
     Raise (LibraryError (normality_test feature1) msg)).
Proof.
  intros Hfail. unfold mannWhitneyUtest, andM. rewrite isNormal_run, Hfail.
  destruct (large_size_difference (len feature1) (len feature2)); reflexivity.
Qed.

End MannWhitney.

Lemma size_difference_exact_1024 : size_difference_exact_upto 1024 = true.
Proof. vm_cast_no_check (eq_refl true). Qed.

Lemma size_difference_exact_upto_rows (bound : nat) :
  size_difference_exact_upto bound
  = all_from 0 (S bound)
      (fun len1 => all_from 0 (S bound) (fun len2 => size_difference_exact len1 len2)).
Proof. reflexivity. Qed.

(** X13.  [mannWhitneyUtest] emits the size warning exactly when
    [abs(len1 - len2) > 0.5 * min(len1, len2)].  For samples of at most 1024
    elements this binary64 test is the exact comparison: the warning is
    emitted exactly when twice the difference of the sizes exceeds the
    smaller size; samples of equal size never trigger it. *)
Theorem mannWhitneyUtest_size_warning
    (lib : SciPy) (self : TestHypothesis) (feature1 feature2 : sample) :
  (In (UserWarning msg_large_difference)
      (trace (mannWhitneyUtest self feature1 feature2))
   <-> large_size_difference (len feature1) (len feature2) = true)
  /\ (len feature1 <= 1024 -> len feature2 <= 1024 ->
      (large_size_difference (len feature1) (len feature2) = true
       <-> Z.min (len feature1) (len feature2)
           < 2 * Z.abs (len feature1 - len feature2))).
Proof.
  split.
  - pose proof (mannWhitney_rest_silent self feature1 feature2) as Hquiet.
    unfold silent_on in Hquiet. rewrite Forall_forall in Hquiet.
    unfold mannWhitneyUtest. cbv zeta.
    destruct (large_size_difference (len feature1) (len feature2)).
    + unfold warn. rewrite (bind_Ok _ eq_refl). cbn [trace fst app].
      split; [reflexivity | intros _; left; reflexivity].
    + rewrite bind_ret. split; [| discriminate].
      intros Hin. specialize (Hquiet _ Hin). discriminate.
  - intros H1 H2.
    assert (H : size_difference_exact (len feature1) (len feature2) = true).
    { pose proof size_difference_exact_1024 as Hall.
      rewrite size_difference_exact_upto_rows in Hall.
      assert (Hlen1 : 0 <= len feature1 < 0 + Z.of_nat 1025).
      { change (Z.of_nat 1025) with 1025. unfold len in *. lia. }
      assert (Hlen2 : 0 <= len feature2 < 0 + Z.of_nat 1025).
      { change (Z.of_nat 1025) with 1025. unfold len in *. lia. }
      pose proof (@all_from_spec _ _ _ Hall (len feature1) Hlen1) as Hrow.
      cbv beta in Hrow.
      exact (@all_from_spec _ _ _ Hrow (len feature2) Hlen2). }
    unfold size_difference_exact in H. apply eqb_prop in H.
    rewrite H. apply Z.ltb_lt.
Qed.

Lemma mannWhitneyUtest_size_warning_witness :
  In (UserWarning msg_large_difference)
     (trace (mannWhitneyUtest (lib := Double.scipy) Double.engine
               Double.normal3 Double.skewed31))
  /\ ~ In (UserWarning msg_large_difference)
          (trace (mannWhitneyUtest (lib := Double.scipy) Double.engine
                    Double.normal3 Samples.normal4)).
Proof.
  split.
  - apply (proj1 (@mannWhitneyUtest_size_warning Double.scipy Double.engine
                    Double.normal3 Double.skewed31)).
    reflexivity.
  - intros Hin.
    apply (proj1 (@mannWhitneyUtest_size_warning Double.scipy Double.engine
                    Double.normal3 Samples.normal4)) in Hin.
    discriminate Hin.
Defined.

(** X14.  The normality test that [mannWhitneyUtest] and
    [wilcoxonSignedRanktest] run only to advise can abort them: when it
    raises on the first sample, the exception propagates and the rank test is
    not called. *)
Theorem advisory_normality_check_can_abort
    (lib : SciPy) (self : TestHypothesis) (feature1 feature2 : sample) (msg : string) :
  normality_answer feature1 = Fails msg ->
  (outcome (mannWhitneyUtest self feature1 feature2)
   = Raise (LibraryError (normality_test feature1) msg)
   /\ ~ In (Called Mannwhitneyu) (trace (mannWhitneyUtest self feature1 feature2)))
  /\ (len feature1 = len feature2 ->
      wilcoxonSignedRanktest self feature1 feature2
      = ([Called (normality_test feature1)],
         Raise (LibraryError (normality_test feature1) msg))).
Proof.
  intros Hfail. split.
  - rewrite (mannWhitney_advisory_check_fails self _ feature2 Hfail).
    split; [reflexivity |]. cbn [trace fst].
    intros Hin. apply in_app_or in Hin. destruct Hin as [Hin | Hin].
    + destruct (large_size_difference (len feature1) (len feature2));
        [destruct Hin as [H | []]; discriminate | destruct Hin].
    + destruct Hin as [H | []]. unfold normality_test in H.
      destruct (len feature1 >? 5000); discriminate.
  - intros Hlen. unfold wilcoxonSignedRanktest, andM. cbv zeta.
    apply Z.eqb_eq in Hlen. rewrite Hlen. cbn [negb]. rewrite bind_ret.
    rewrite isNormal_run, Hfail. reflexivity.
Qed.

Lemma advisory_normality_check_can_abort_witness :
  outcome (mannWhitneyUtest (lib := Double.scipy) Double.engine
             [0.9; 1.5]%float Double.normal3)
  = Raise (LibraryError Shapiro "Data must be at least length 3.").
Proof.
  exact (proj1 (proj1 (@advisory_normality_check_can_abort
                         Double.scipy Double.engine
                         [0.9; 1.5]%float Double.normal3
                         "Data must be at least length 3." eq_refl))).
Defined.

(** ** fisherExacttest *)

Section Fisher.

Context {lib : SciPy}.
Variable self : TestHypothesis.

Lemma fisherExacttest_after_advice (feature1 feature2 : labels) :
  (ct <- call Crosstab (crosstab feature1 feature2) ;;
   '(_, p_value) <- call Fisher_exact (fisher_exact ct) ;;
   checkSignificance self p_value)
  = match crosstab feature1 feature2 with
    | Returns ct =>
        match fisher_exact ct with
        | Returns (_, p_value) =>
            ([Called Crosstab; Called Fisher_exact;
              Stdout (if PrimFloat.ltb p_value (significance_level self)
                      then msg_rejected else msg_not_rejected)],
             Ok (PrimFloat.ltb p_value (significance_level self), p_value))
        | Fails msg =>
            ([Called Crosstab; Called Fisher_exact], Raise (LibraryError Fisher_exact msg))
        end
    | Fails msg => ([Called Crosstab], Raise (LibraryError Crosstab msg))
    end.
Proof.
  unfold call. destruct (crosstab feature1 feature2) as [ct | m]; [| reflexivity].
  rewrite (bind_Ok _ eq_refl).
  destruct (fisher_exact ct) as [[stat p] | m]; [| reflexivity].
  rewrite (bind_Ok _ eq_refl), checkSignificance_run. reflexivity.
Qed.

End Fisher.

(** X21.  The advice of [fisherExacttest] to use chi-square looks at the
    lengths of the two sequences, not at the table: the warning is emitted
    exactly when both sequences have at least 5 elements.  It changes nothing
    else: the outcome is that of the cross-tabulation and of
    [stats.fisher_exact], and [fisher_exact] is not called when the
    cross-tabulation raises. *)
Theorem fisherExacttest_warning_and_outcome
    (lib : SciPy) (self : TestHypothesis) (feature1 feature2 : labels) :
  (In (UserWarning ("Sample lengths are >=5." ++ nl ++ "Try using Chi-Square test.")%string)
      (trace (fisherExacttest self feature1 feature2))
   <-> 5 <= len feature1 /\ 5 <= len feature2)
  /\ outcome (fisherExacttest self feature1 feature2)
     = match crosstab feature1 feature2 with
       | Returns ct =>
           match fisher_exact ct with
           | Returns (_, p_value) =>
               Ok (PrimFloat.ltb p_value (significance_level self), p_value)
           | Fails msg => Raise (LibraryError Fisher_exact msg)
           end
       | Fails msg => Raise (LibraryError Crosstab msg)
       end
  /\ (forall msg, crosstab feature1 feature2 = Fails msg ->
                  ~ In (Called Fisher_exact) (trace (fisherExacttest self feature1 feature2))).
Proof.
  assert (Hlens : (len feature1 >=? 5) && (len feature2 >=? 5) = true
                  <-> 5 <= len feature1 /\ 5 <= len feature2).
  { rewrite andb_true_iff, !Z.geb_le. reflexivity. }
  unfold fisherExacttest.
  destruct ((len feature1 >=? 5) && (len feature2 >=? 5)).
  - unfold warn. rewrite (bind_Ok _ eq_refl), fisherExacttest_after_advice.
    split; [| split].
    + split; [intros _; apply Hlens; reflexivity | intros _; left; reflexivity].
    + destruct (crosstab feature1 feature2) as [ct | m]; [| reflexivity].
      destruct (fisher_exact ct) as [[stat p] | m]; reflexivity.
    + intros msg ->. cbn [trace fst app].
      intros [Hin | [Hin | []]]; discriminate Hin.
  - rewrite bind_ret, fisherExacttest_after_advice.
    split; [| split].
    + split; [| intros Hboth; apply Hlens in Hboth; discriminate].
      intros Hin. exfalso.
      destruct (crosstab feature1 feature2) as [ct | m];
        [destruct (fisher_exact ct) as [[stat p] | m] |];
        cbn [trace fst] in Hin;
        repeat (destruct Hin as [Hin | Hin]; [discriminate Hin |]); destruct Hin.
    + destruct (crosstab feature1 feature2) as [ct | m]; [| reflexivity].
      destruct (fisher_exact ct) as [[stat p] | m]; reflexivity.
    + intros msg ->. cbn [trace fst].
      intros [Hin | []]; discriminate Hin.
Qed.

(** ** The clt flag on normal samples *)

Section CltFlag.

Context {lib : SciPy}.
Variable self : TestHypothesis.

Lemma require_normal_all_normal (clt : bool) (features : list sample) :
  (forall g, In g features -> outcome (isNormal self g) = Ok true) ->
  require_normal self clt features
  = (map (fun g => Called (normality_test g)) features, Ok tt).
Proof.
  induction features as [| g rest IH]; intros Hall; [reflexivity |].
  cbn [require_normal map].
  pose proof (Hall g (or_introl eq_refl)) as Hg.
  pose proof (isNormal_trace self g) as Ht.
  destruct (isNormal self g) as [t r]. cbn [outcome trace fst snd] in Hg, Ht. subst t r.
  rewrite (bind_Ok _ eq_refl). cbn [negb]. rewrite bind_ret.
  rewrite IH by (intros h Hh; apply Hall; right; exact Hh). reflexivity.
Qed.

Lemma normal_pair_gate (feature1 feature2 : sample) :
  outcome (isNormal self feature1) = Ok true ->
  outcome (isNormal self feature2) = Ok true ->
  orM (notM (isNormal self feature1)) (notM (isNormal self feature2))
  = ([Called (normality_test feature1); Called (normality_test feature2)], Ok false).
Proof. intros H1 H2. rewrite either_not_normal_run, H1, H2. reflexivity. Qed.

End CltFlag.

(** X22.  On samples that are all normal the [clt] flag makes no difference:
    [OneSampleTtest], [twoSampleTtest], [pairedTtest] and [ANOVA] run the
    same with it and without it, log and outcome alike. *)
Theorem clt_irrelevant_for_normal_samples (lib : SciPy) (self : TestHypothesis) :
  (forall (feature : sample) (meu : float),
      outcome (isNormal self feature) = Ok true ->
      OneSampleTtest self feature meu true = OneSampleTtest self feature meu false)
  /\ (forall feature1 feature2 : sample,
        outcome (isNormal self feature1) = Ok true ->
        outcome (isNormal self feature2) = Ok true ->
        twoSampleTtest self feature1 feature2 true
        = twoSampleTtest self feature1 feature2 false
        /\ pairedTtest self feature1 feature2 true
           = pairedTtest self feature1 feature2 false)
  /\ (forall features : list sample,
        (forall g, In g features -> outcome (isNormal self g) = Ok true) ->
        ANOVA self features true = ANOVA self features false).
Proof.
  split; [| split].
  - intros feature meu H. unfold OneSampleTtest.
    destruct (isNormal self feature) as [t r]. cbn [outcome snd] in H. subst r.
    rewrite !(bind_Ok _ eq_refl). reflexivity.
  - intros feature1 feature2 H1 H2. split.
    + unfold twoSampleTtest. destruct (negb (len feature1 =? len feature2));
        [reflexivity |].
      rewrite !bind_ret, (normal_pair_gate self _ _ H1 H2).
      rewrite !(bind_Ok _ eq_refl). reflexivity.
    + unfold pairedTtest. rewrite (normal_pair_gate self _ _ H1 H2).
      rewrite !(bind_Ok _ eq_refl). reflexivity.
  - intros features Hall. destruct features as [| feature0 rest]; [reflexivity |].
    unfold ANOVA, ANOVA_checks_and_test.
    rewrite !(require_normal_all_normal self _ _ Hall). reflexivity.
Qed.

(** ** pearsonCorrelation, in full *)

(** X23.  When the normality test returns on both samples,
    [pearsonCorrelation] raises a validation error exactly when the lengths
    differ, or one variance is zero, or one sample is not normal; in every
    other case its outcome is the verdict on the p-value of
    [stats.pearsonr]. *)
Theorem pearsonCorrelation_validation
    (lib : SciPy) (self : TestHypothesis) (feature1 feature2 : sample)
    (normal1 normal2 : bool) :
  outcome (isNormal self feature1) = Ok normal1 ->
  outcome (isNormal self feature2) = Ok normal2 ->
  (raises_ValueError (pearsonCorrelation self feature1 feature2)
   <-> len feature1 <> len feature2
       \/ PrimFloat.eqb (np_var feature1) 0 = true
       \/ PrimFloat.eqb (np_var feature2) 0 = true
       \/ normal1 = false
       \/ normal2 = false)
  /\ (len feature1 = len feature2 ->
      PrimFloat.eqb (np_var feature1) 0 = false ->
      PrimFloat.eqb (np_var feature2) 0 = false ->
      normal1 = true -> normal2 = true ->
      outcome (pearsonCorrelation self feature1 feature2)
      = match pearsonr feature1 feature2 with
        | Returns (_, p_value) =>
            Ok (PrimFloat.ltb p_value (significance_level self), p_value)
        | Fails msg => Raise (LibraryError Pearsonr msg)
        end).
Proof.
  intros H1 H2.
  assert (Hpass : len feature1 = len feature2 ->
                  PrimFloat.eqb (np_var feature1) 0 = false ->
                  PrimFloat.eqb (np_var feature2) 0 = false ->
                  normal1 = true -> normal2 = true ->
                  outcome (pearsonCorrelation self feature1 feature2)
                  = match pearsonr feature1 feature2 with
                    | Returns (_, p_value) =>
                        Ok (PrimFloat.ltb p_value (significance_level self), p_value)
                    | Fails msg => Raise (LibraryError Pearsonr msg)
                    end).
  { intros Hlen Hv1 Hv2 -> ->. unfold pearsonCorrelation.
    apply Z.eqb_eq in Hlen. rewrite Hlen, Hv1, Hv2. cbn [negb orb].
    rewrite !bind_ret, (normal_pair_gate self _ _ H1 H2).
    rewrite (bind_Ok _ eq_refl). unfold outcome at 1. cbn [snd].
    rewrite bind_ret. apply call_then_check. }
  split; [| exact Hpass].
  split.
  - intros [msg Hraise].
    destruct (Z.eq_dec (len feature1) (len feature2)) as [Hlen | Hlen]; [| left; exact Hlen].
    destruct (PrimFloat.eqb (np_var feature1) 0) eqn:Hv1; [right; left; reflexivity |].
    destruct (PrimFloat.eqb (np_var feature2) 0) eqn:Hv2; [right; right; left; reflexivity |].
    destruct normal1; [| right; right; right; left; reflexivity].
    destruct normal2; [| right; right; right; right; reflexivity].
    rewrite (Hpass Hlen eq_refl eq_refl eq_refl eq_refl) in Hraise.
    destruct (pearsonr feature1 feature2) as [[stat p] | m]; discriminate.
  - intros Hcases.
    destruct (Z.eq_dec (len feature1) (len feature2)) as [Hlen | Hlen];
      [| rewrite (pearsonCorrelation_unequal self _ _ Hlen); eexists; reflexivity].
    destruct (PrimFloat.eqb (np_var feature1) 0 || PrimFloat.eqb (np_var feature2) 0)
      eqn:Hvar.
    { rewrite (pearsonCorrelation_zero_variance self _ _ Hlen Hvar).
      eexists. reflexivity. }
    apply orb_false_iff in Hvar. destruct Hvar as [Hv1 Hv2].
    destruct Hcases as [Hc | [Hc | [Hc | Hc]]]; try congruence.
    assert (Hgate : outcome (orM (notM (isNormal self feature1))
                                 (notM (isNormal self feature2))) = Ok true).
    { rewrite either_not_normal_run, H1.
      destruct normal1; [| reflexivity].
      cbn [outcome snd]. rewrite H2.
      destruct Hc as [Hc | ->]; [discriminate | reflexivity]. }
    rewrite (pearsonCorrelation_not_normal self _ _ Hlen); auto.
    + eexists. reflexivity.
    + rewrite Hv1, Hv2. reflexivity.
Qed.

Lemma pearsonCorrelation_validation_witness :
  outcome (pearsonCorrelation (lib := Double.scipy) Double.engine
             Double.normal3 Double.normal3)
  = Ok (false, 0.5%float).
Proof.
  exact (proj2 (@pearsonCorrelation_validation Double.scipy Double.engine
                  Double.normal3 Double.normal3 true true eq_refl eq_refl)
           eq_refl eq_refl eq_refl eq_refl eq_refl).
Defined.

(** * Properties of the loader *)

Module LoaderFacts.

Import Loader.

Local Open Scope string_scope.

(** ** [str.endswith] *)

Lemma length_app (s1 s2 : string) :
  String.length (s1 ++ s2) = (String.length s1 + String.length s2)%nat.
Proof. induction s1 as [| c s1 IH]; simpl; [reflexivity | rewrite IH; reflexivity]. Qed.

Lemma substring_all (s : string) : substring 0 (String.length s) s = s.
Proof. induction s as [| c s IH]; simpl; [reflexivity | rewrite IH; reflexivity]. Qed.

Lemma substring_skip (s1 s2 : string) (m : nat) :
  substring (String.length s1) m (s1 ++ s2) = substring 0 m s2.
Proof. induction s1 as [| c s1 IH]; simpl; [reflexivity | exact IH]. Qed.

Lemma substring_split (s : string) (k : nat) :
  (k <= String.length s)%nat ->
  s = substring 0 k s ++ substring k (String.length s - k) s.
Proof.
  revert k. induction s as [| c s IH]; intros k Hk.
  - simpl in Hk. assert (k = 0%nat) as -> by lia. reflexivity.
  - destruct k as [| k].
    + simpl. rewrite substring_all. reflexivity.
    + simpl in Hk. simpl. f_equal. apply IH. lia.
Qed.

Lemma endswith_spec (s suffix : string) :
  endswith s suffix = true <-> exists start, s = start ++ suffix.
Proof.
  unfold endswith. rewrite andb_true_iff, Nat.leb_le, String.eqb_eq. split.
  - intros [Hle Hsub].
    exists (substring 0 (String.length s - String.length suffix)%nat s).
    pose proof (@substring_split s (String.length s - String.length suffix)%nat) as Hsplit.
    replace (String.length s - (String.length s - String.length suffix))%nat
      with (String.length suffix) in Hsplit by lia.
    rewrite Hsub in Hsplit. apply Hsplit. lia.
  - intros [start ->]. rewrite length_app. split; [lia |].
    replace (String.length start + String.length suffix - String.length suffix)%nat
      with (String.length start) by lia.
    rewrite substring_skip. apply substring_all.
Qed.

Lemma endswith_app (start suffix : string) : endswith (start ++ suffix) suffix = true.
Proof. apply endswith_spec. exists start. reflexivity. Qed.

Lemma endswith_false (s suffix : string) :
  (forall start, s <> start ++ suffix) -> endswith s suffix = false.
Proof.
  intros H. destruct (endswith s suffix) eqn:E; [| reflexivity].
  apply endswith_spec in E. destruct E as [start ->]. destruct (H start eq_refl).
Qed.

Section Facts.

Context {pd : Pandas}.

(** X15.  [load_csv] accepts exactly the paths that end in ".csv" (in lower
    case): any other path raises the validation error without reading
    anything and leaves the loader as it was.  On an accepted path the outcome
    is decided by [pd.read_csv]: the table is stored, its shape printed and
    the table returned, or the exception is wrapped in a [RuntimeError] that
    carries its message and the loader is left as it was. *)
Theorem load_csv_extension_and_outcome
    (self : DataLoader) (filepath : string) (options : csv_options) :
  ((forall start, filepath <> start ++ ".csv") ->
   load_csv self filepath options
   = ([], Raise (ValueError "File should be in CSV format."), self))
  /\ ((exists start, filepath = start ++ ".csv") ->
      load_csv self filepath options
      = match read_csv filepath options with
        | Returns df =>
            ([Read_csv filepath;
              Stdout ("CSV file loaded successfully! Shape: " ++ str_shape (shape df))],
             Ok df, {| data := Some df |})
        | Fails e =>
            ([Read_csv filepath], Raise (RuntimeError ("Error loading CSV: " ++ e)), self)
        end).
Proof.
  split.
  - intros H. unfold load_csv. rewrite (@endswith_false _ _ H). reflexivity.
  - intros H. unfold load_csv. apply endswith_spec in H. rewrite H. reflexivity.
Qed.

(** X16.  [load_excel] accepts exactly the paths that end in ".xlsx", with
    the same behaviour: validation error and no read otherwise; on an
    accepted path the table read is stored, reported and returned, or the
    exception of [pd.read_excel] is wrapped in a [RuntimeError] and the
    loader is left as it was. *)
Theorem load_excel_extension_and_outcome
    (self : DataLoader) (filepath : string) (options : excel_options) :
  ((forall start, filepath <> start ++ ".xlsx") ->
   load_excel self filepath options
   = ([], Raise (ValueError "File should be in Excel (.xlsx) format."), self))
  /\ ((exists start, filepath = start ++ ".xlsx") ->
      load_excel self filepath options
      = match read_excel filepath options with
        | Returns df =>
            ([Read_excel filepath;
              Stdout ("Excel file loaded successfully! Shape: " ++ str_shape (shape df))],
             Ok df, {| data := Some df |})
        | Fails e =>
            ([Read_excel filepath],
             Raise (RuntimeError ("Error loading Excel file: " ++ e)), self)
        end).
Proof.
  split.
  - intros H. unfold load_excel. rewrite (@endswith_false _ _ H). reflexivity.
  - intros H. unfold load_excel. apply endswith_spec in H. rewrite H. reflexivity.
Qed.

Lemma csv_is_not_xlsx (filepath : string) :
  endswith filepath ".csv" = true -> endswith filepath ".xlsx" = false.
Proof.
  intros Hcsv. destruct (endswith filepath ".xlsx") eqn:Hxlsx; [| reflexivity].
  apply endswith_spec in Hcsv, Hxlsx.
  destruct Hcsv as [a Ha]. destruct Hxlsx as [b Hb].
  pose proof (append_correct2 a ".csv" 3) as Hv.
  pose proof (append_correct2 b ".xlsx" 4) as Hx.
  rewrite <- Ha in Hv. rewrite <- Hb in Hx.
  assert (Hlen : (3 + String.length a = 4 + String.length b)%nat).
  { pose proof (f_equal String.length Ha) as H1.
    pose proof (f_equal String.length Hb) as H2.
    rewrite length_app in H1, H2. simpl in H1, H2. lia. }
  rewrite Hlen in Hv. rewrite <- Hx in Hv. simpl in Hv. discriminate.
Qed.

(** X17.  No path is accepted by both loaders: a path that gets past the
    extension check of [load_csv] is refused by [load_excel] with the
    validation error, without a read and without a change to the loader. *)
Theorem loaders_accept_disjoint_paths
    (self : DataLoader) (filepath : string) (options : excel_options) :
  endswith filepath ".csv" = true ->
  load_excel self filepath options
  = ([], Raise (ValueError "File should be in Excel (.xlsx) format."), self).
Proof.
  intros Hcsv. unfold load_excel. rewrite (csv_is_not_xlsx _ Hcsv). reflexivity.
Qed.

(** ** What the loader remembers *)

Lemma data_after_invoke (self : DataLoader) (c : method_call) :
  data (after (invoke self c))
  = match loads c with
    | Some df => Some df
    | None => data self
    end.
Proof.
  destruct c as [filepath options | filepath options |]; cbn [invoke loads].
  - unfold load_csv. destruct (endswith filepath ".csv"); [| reflexivity].
    cbn [negb]. destruct (read_csv filepath options); reflexivity.
  - unfold load_excel. destruct (endswith filepath ".xlsx"); [| reflexivity].
    cbn [negb]. destruct (read_excel filepath options); reflexivity.
  - unfold get_data. destruct (data self) eqn:E; exact E.
Qed.

(** X18.  A call that raises leaves the loader as it was: after a refused
    path, a failed read or a premature [get_data], the loader still holds the
    table it held before, and [get_data] answers as it did. *)
Theorem raising_call_keeps_data
    (self : DataLoader) (c : method_call) (e : error) :
  value (invoke self c) = Raise e ->
  after (invoke self c) = self
  /\ value (get_data (after (invoke self c))) = value (get_data self).
Proof.
  intros Hraise.
  assert (Hsame : after (invoke self c) = self).
  { destruct c as [filepath options | filepath options |]; cbn [invoke] in *.
    - unfold load_csv in *. destruct (negb (endswith filepath ".csv")); [reflexivity |].
      destruct (read_csv filepath options); [discriminate | reflexivity].
    - unfold load_excel in *. destruct (negb (endswith filepath ".xlsx")); [reflexivity |].
      destruct (read_excel filepath options); [discriminate | reflexivity].
    - unfold get_data. destruct (data self); reflexivity. }
  split; [exact Hsame | rewrite Hsame; reflexivity].
Qed.

(** X19.  The table a call returns is the table the loader holds
    afterwards: [get_data] right after a successful load returns the table
    that the load returned. *)
Theorem returned_table_is_stored
    (self : DataLoader) (c : method_call) (df : DataFrame) :
  value (invoke self c) = Ok df ->
  data (after (invoke self c)) = Some df
  /\ get_data (after (invoke self c)) = ([], Ok df, after (invoke self c)).
Proof.
  intros Hok.
  assert (Hdata : data (after (invoke self c)) = Some df).
  { destruct c as [filepath options | filepath options |]; cbn [invoke] in *.
    - unfold load_csv in *. destruct (negb (endswith filepath ".csv")); [discriminate |].
      destruct (read_csv filepath options); [| discriminate].
      injection Hok as ->. reflexivity.
    - unfold load_excel in *. destruct (negb (endswith filepath ".xlsx")); [discriminate |].
      destruct (read_excel filepath options); [| discriminate].
      injection Hok as ->. reflexivity.
    - unfold get_data in *. destruct (data self) as [df' |] eqn:E; [| discriminate].
      injection Hok as ->. exact E. }
  split; [exact Hdata |]. unfold get_data. rewrite Hdata. reflexivity.
Qed.

(** X20.  Over any sequence of calls on a loader, what the loader holds at
    the end is the table of the last load that succeeded, or what it held at
    the start if none did.  On a new loader [get_data] therefore returns the
    last table loaded, and raises the validation error exactly when no load
    has succeeded so far. *)
Theorem session_keeps_last_loaded (calls : list method_call) :
  (forall self : DataLoader,
      data (session self calls) = last_loaded (data self) calls)
  /\ value (get_data (session init calls))
     = match last_loaded None calls with
       | Some df => Ok df
       | None => Raise (ValueError "No dataset loaded. Please load a dataset first.")
       end
  /\ (last_loaded None calls = None <-> forall c, In c calls -> loads c = None).
Proof.
  assert (Hdata : forall self : DataLoader,
             data (session self calls) = last_loaded (data self) calls).
  { induction calls as [| c rest IH]; intros self; [reflexivity |].
    cbn [session last_loaded]. rewrite IH, data_after_invoke. reflexivity. }
  split; [exact Hdata | split].
  - unfold get_data. rewrite Hdata. cbn [init data].
    destruct (last_loaded None calls); reflexivity.
  - assert (Hsome : forall (l : list method_call) (df : DataFrame),
               last_loaded (Some df) l <> None).
    { induction l as [| c rest IH]; intros df; cbn [last_loaded]; [discriminate |].
      destruct (loads c); apply IH. }
    clear Hdata. induction calls as [| c rest IH]; cbn [last_loaded].
    + split; [intros _ c [] | reflexivity].
    + destruct (loads c) as [df |] eqn:E.
      * split; [intros H; destruct (Hsome _ _ H) |].
        intros H. specialize (H c (or_introl eq_refl)). congruence.
      * rewrite IH. split.
        -- intros H c' [<- | Hin]; [exact E | exact (H c' Hin)].
        -- intros H c' Hin. apply H. right. exact Hin.
Qed.

End Facts.

(** Runs on the stand-in for pandas. *)

Example load_then_fail_then_get :
  let s1 := after (load_csv (pd := Double.pandas) init "iris.csv" csv_defaults) in
  let s2 := after (load_csv s1 "missing.csv" csv_defaults) in
  load_csv (pd := Double.pandas) init "iris.csv" csv_defaults
  = ([Read_csv "iris.csv"; Stdout "CSV file loaded successfully! Shape: (2, 3)"],
     Ok Double.table23, (@Build_DataLoader Double.pandas (Some Double.table23)))
  /\ value (load_csv s1 "missing.csv" csv_defaults)
     = Raise (RuntimeError
                "Error loading CSV: [Errno 2] No such file or directory: 'missing.csv'")
  /\ value (get_data s2) = Ok Double.table23.
Proof. repeat split. Qed.

Lemma loaders_accept_disjoint_paths_witness :
  endswith "iris.csv" ".csv" = true
  /\ load_excel (pd := Double.pandas) init "iris.csv" excel_defaults
     = ([], Raise (ValueError "File should be in Excel (.xlsx) format."), init).
Proof.
  split; [reflexivity |].
  exact (@loaders_accept_disjoint_paths Double.pandas init "iris.csv"
           excel_defaults eq_refl).
Defined.

Lemma raising_call_keeps_data_witness :
  value (invoke (pd := Double.pandas) (@Build_DataLoader Double.pandas (Some Double.table23))
           (Load_csv "IRIS.CSV" csv_defaults))
  = Raise (ValueError "File should be in CSV format.")
  /\ after (invoke (pd := Double.pandas) (@Build_DataLoader Double.pandas (Some Double.table23))
              (Load_csv "IRIS.CSV" csv_defaults))
     = (@Build_DataLoader Double.pandas (Some Double.table23)).
Proof.
  split; [reflexivity |].
  exact (proj1 (@raising_call_keeps_data Double.pandas
                  (@Build_DataLoader Double.pandas (Some Double.table23))
                  (Load_csv "IRIS.CSV" csv_defaults)
                  (ValueError "File should be in CSV format.") eq_refl)).
Defined.

Lemma returned_table_is_stored_witness :
  value (invoke (pd := Double.pandas) init (Load_excel "iris.xlsx" excel_defaults))
  = Ok (Double.table23 ++ Double.table23)%list
  /\ data (after (invoke (pd := Double.pandas) init
                    (Load_excel "iris.xlsx" excel_defaults)))
     = Some (Double.table23 ++ Double.table23)%list.
Proof.
  split; [reflexivity |].
  exact (proj1 (@returned_table_is_stored Double.pandas init
                  (Load_excel "iris.xlsx" excel_defaults)
                  (Double.table23 ++ Double.table23)%list eq_refl)).
Defined.

End LoaderFacts.
